(** * gotex: rendering LaTeX documents by driving an external compiler

    A shallow embedding of [main.go] of package [gotex] and the properties
    of its multi-pass loop.  The three functions of the package, [Render],
    [runLatex] and [needsRerun], are written in a small state-and-trace
    monad over an abstract host (temporary directories, processes, files);
    the pieces of the Go standard library they call on values ([path.Join],
    [strings.Contains], [bufio.Scanner] with [bufio.ScanLines]) are written
    out as functions. *)

From Stdlib Require Import String Ascii ZArith List Lia Bool.
From stdpp Require Import gmap strings.
From Equations Require Import Equations.
From Equations.Prop Require Import Logic.
Import ListNotations.
Open Scope Z_scope.

(** ** Go values

    A Go [string] is a sequence of bytes: [string], one [ascii] per byte.
    A [[]byte] is a [list Byte.byte].  Go's [int] is modelled by [Z]; the
    only arithmetic of the package is the pass counter [runs++], which
    stays between 0 and [maxRuns] (lemma [renderLoop_runs_bounds]) and so
    never wraps. *)

Definition len (s : string) : Z := Z.of_nat (String.length s).

(** ** package strings *)

(** [strings.HasPrefix(s, prefix)]. *)
Fixpoint HasPrefix (s prefix : string) : bool :=
  match prefix with
  | EmptyString => true
  | String p prefix' =>
      match s with
      | EmptyString => false
      | String c s' => Ascii.eqb c p && HasPrefix s' prefix'
      end
  end.

(** [strings.Contains(s, substr)]: [substr] occurs somewhere within [s]. *)
Fixpoint Contains (s substr : string) : bool :=
  HasPrefix s substr ||
  match s with
  | EmptyString => false
  | String _ s' => Contains s' substr
  end.

(** ** package path *)

Module path.

Definition slash : ascii := "/"%char.

(** The elements of a path between its slashes, first to last; [cur]
    holds, reversed, the bytes of the element being read. *)
Fixpoint elements (cur : list ascii) (p : string) : list string :=
  match p with
  | EmptyString => [string_of_list_ascii (rev cur)]
  | String c p' =>
      if Ascii.eqb c slash
      then string_of_list_ascii (rev cur) :: elements [] p'
      else elements (c :: cur) p'
  end.

(** One step of the loop of [path.Clean] over the elements; [out] is the
    output produced so far, last element first.  An empty element (two
    slashes in a row) and ["."] are dropped; [".."] removes the element
    before it when there is one that is not itself [".."], is kept at
    the start of a path that is not rooted, and is dropped at the root;
    any other element is appended. *)
Definition cleanStep (rooted : bool) (out : list string) (e : string)
  : list string :=
  if String.eqb e "" then out
  else if String.eqb e "." then out
  else if String.eqb e ".." then
    match out with
    | top :: out' =>
        if String.eqb top ".." then e :: out else out'
    | [] => if rooted then out else [e]
    end
  else e :: out.

Fixpoint joinElements (es : list string) : string :=
  match es with
  | [] => ""
  | [e] => e
  | e :: es' => e +:+ "/" +:+ joinElements es'
  end.

(** [path.Clean(path)]. *)
Definition Clean (p : string) : string :=
  match p with
  | EmptyString => "."
  | String c _ =>
      let rooted := Ascii.eqb c slash in
      let out := fold_left (cleanStep rooted) (elements [] p) [] in
      let body := joinElements (rev out) in
      if rooted then "/" +:+ body
      else if String.eqb body "" then "." else body
  end.

(** [path.Join(elem...)]: the non-empty elements joined by slashes, then
    cleaned; the empty string when every element is empty. *)
Definition Join (elem : list string) : string :=
  match List.filter (fun e => negb (String.eqb e "")) elem with
  | [] => ""
  | es => Clean (joinElements es)
  end.

End path.

(** ** package bufio: a Scanner with the default split function ScanLines *)

Module bufio.

(** [bufio.MaxScanTokenSize = 64 * 1024]: the size up to which the buffer
    of a Scanner grows.  A line is delivered once the buffer holds it up
    to its newline (or up to the end of the input). *)
Definition MaxScanTokenSize : Z := 64 * 1024.

Definition newline : ascii := "010"%char.
Definition carriageReturn : ascii := "013"%char.

(** The input up to its first newline, and what follows that newline
    ([None] when the input has no newline). *)
Fixpoint cutLine (data : string) : string * option string :=
  match data with
  | EmptyString => (EmptyString, None)
  | String c data' =>
      if Ascii.eqb c newline then (EmptyString, Some data')
      else let '(line, rest) := cutLine data' in (String c line, rest)
  end.

(** [dropCR]: a line loses one trailing carriage return. *)
Fixpoint dropCR (line : string) : string :=
  match line with
  | EmptyString => EmptyString
  | String c EmptyString =>
      if Ascii.eqb c carriageReturn then EmptyString else line
  | String c line' => String c (dropCR line')
  end.

(** The outcome of one call of [Scan] on a Scanner whose unread input is
    [data]: [Token text rest], the next line (what [scanner.Text()]
    returns) and the input left after it, or [Done] when [Scan] returns
    false.  That is at the end of the input, and, with [ErrTooLong], when
    the next line does not fit the buffer: the buffer must hold the line
    with its newline, so a line of [MaxScanTokenSize] bytes or more before
    its newline stops the scan for good. *)
Inductive scanned : Type :=
| Token (text rest : string)
| Done.

Definition Scan (data : string) : scanned :=
  match data with
  | EmptyString => Done
  | _ =>
      let '(line, rest) := cutLine data in
      if MaxScanTokenSize <=? len line then Done
      else Token (dropCR line) (default EmptyString rest)
  end.

End bufio.

(** ** Errors, commands and files *)

(** A Go [error] value.  [errorString] is what [errors.New] builds; the
    other constructors are the errors the host packages hand out:
    [*exec.ExitError] (the child exited with a non-zero status),
    [*exec.Error] (the executable was not found) and [*os.PathError]. *)
Inductive error : Type :=
| errorString (s : string)
| ExitError (status : Z)
| ExecError (name msg : string)
| PathError (op name msg : string).

Module errors.
Definition New (text : string) : error := errorString text.
End errors.

Module exec.

(** The fields of [exec.Cmd] the package sets.  [Stdin] is [None] for a
    nil reader and [Some s] for [strings.NewReader(s)]. *)
Record Cmd : Type := mkCmd {
  Path : string;
  Args : list string;
  Dir : string;
  Stdin : option string
}.

(** [exec.Command(name, arg...)]: [Args] holds the command name followed
    by [arg]; the search of [name] in $PATH is left to the host. *)
Definition Command (name : string) (arg : list string) : Cmd :=
  {| Path := name; Args := name :: arg; Dir := ""; Stdin := None |}.

Definition setDir (c : Cmd) (dir : string) : Cmd :=
  {| Path := Path c; Args := Args c; Dir := dir; Stdin := Stdin c |}.

Definition setStdin (c : Cmd) (r : option string) : Cmd :=
  {| Path := Path c; Args := Args c; Dir := Dir c; Stdin := r |}.

End exec.

Module os.
(** An open [*os.File]: its name and the bytes that reading it delivers,
    up to the end of the file or the first read error. *)
Record File : Type := mkFile { Name : string; data : string }.
End os.

(** ** The host

    What the package asks of its environment, as transitions of a world
    [W].  Each field is one call of the Go standard library and returns
    what that call returns. *)
Class Host (W : Type) : Type := {
  ioutil_TempDir : string -> string -> W -> (string + error) * W;
  cmd_Start : exec.Cmd -> W -> option error * W;
  cmd_Wait : exec.Cmd -> W -> option error * W;
  os_Open : string -> W -> (os.File + error) * W;
  file_Close : os.File -> W -> option error * W;
  ioutil_ReadFile : string -> W -> (list Byte.byte + error) * W;
  os_RemoveAll : string -> W -> option error * W
}.

(** The calls a run makes on the host, each with its result, in order. *)
Inductive Event : Type :=
| TempDirCall (dir pattern : string) (r : string + error)
| StartCall (c : exec.Cmd) (r : option error)
| WaitCall (c : exec.Cmd) (r : option error)
| OpenCall (name : string) (r : os.File + error)
| CloseCall (f : os.File) (r : option error)
| ReadFileCall (name : string) (r : list Byte.byte + error)
| RemoveAllCall (name : string) (r : option error).

(** ** package gotex *)

(** [Options] contains the knobs used to change gotex's behavior. *)
Record Options : Type := mkOptions {
  Command : string;
  Runs : Z
}.

Definition setCommand (o : Options) (c : string) : Options :=
  {| Command := c; Runs := Runs o |}.

(** The rerun request of the LaTeX log, as in
    "Label(s) may have changed. Rerun to get cross-references right." *)
Definition rerunMarker : string := "Rerun to get".

(** The loop of [needsRerun] over the lines of the log:
    [for scanner.Scan() { if strings.Contains(scanner.Text(), "Rerun to get")
    { return true } }; return false]. *)
Equations? scanLog (data : string) : bool by wf (String.length data) lt :=
  scanLog data with inspect (bufio.Scan data) := {
    | exist _ (bufio.Token text rest) Hscan =>
        if Contains text rerunMarker then true else scanLog rest
    | exist _ bufio.Done _ => false }.
Proof.
  assert (Hcut : forall d line r, bufio.cutLine d = (line, r) ->
            (String.length (default EmptyString r) <= String.length d)%nat).
  { induction d as [|a d IH]; simpl; intros line r E.
    - injection E as <- <-. simpl. lia.
    - destruct (Ascii.eqb a bufio.newline).
      + injection E as <- <-. simpl. lia.
      + destruct (bufio.cutLine d) as [l' r'] eqn:E'.
        injection E as <- <-. specialize (IH _ _ eq_refl). lia. }
  destruct data as [|c data]; [discriminate|].
  unfold bufio.Scan in Hscan. simpl in Hscan.
  destruct (Ascii.eqb c bufio.newline).
  - destruct (bufio.MaxScanTokenSize <=? len ""); [discriminate|].
    injection Hscan as _ <-. simpl. lia.
  - destruct (bufio.cutLine data) as [l' r'] eqn:E'.
    destruct (bufio.MaxScanTokenSize <=? len (String c l')); [discriminate|].
    injection Hscan as _ <-. specialize (Hcut _ _ _ E'). simpl. lia.
Qed.

(** ** Computations on the host

    A computation takes the world and returns its result, the new world
    and the calls it made, in order. *)
Definition M (W A : Type) : Type := W -> A * W * list Event.

#[global] Instance M_ret {W} : MRet (M W) := fun A a w => (a, w, []).

#[global] Instance M_bind {W} : MBind (M W) := fun A B k m w =>
  let '(a, w1, t1) := m w in
  let '(b, w2, t2) := k a w1 in
  (b, w2, t1 ++ t2).

(** One call on the host, recorded with its result. *)
Definition call {W A} (op : W -> A * W) (ev : A -> Event) : M W A :=
  fun w => let '(a, w') := op w in (a, w', [ev a]).

Section Gotex.

Context {W : Type} `{Host W}.

Definition TempDir (dir pattern : string) : M W (string + error) :=
  call (ioutil_TempDir dir pattern) (TempDirCall dir pattern).
Definition Start (c : exec.Cmd) : M W (option error) :=
  call (cmd_Start c) (StartCall c).
Definition Wait (c : exec.Cmd) : M W (option error) :=
  call (cmd_Wait c) (WaitCall c).
Definition Open (name : string) : M W (os.File + error) :=
  call (os_Open name) (OpenCall name).
Definition Close (f : os.File) : M W (option error) :=
  call (file_Close f) (CloseCall f).
Definition ReadFile (name : string) : M W (list Byte.byte + error) :=
  call (ioutil_ReadFile name) (ReadFileCall name).
Definition RemoveAll (name : string) : M W (option error) :=
  call (os_RemoveAll name) (RemoveAllCall name).

(** [runLatex] does the actual work of spawning the child and waiting
    for it. *)
Definition runLatex (document : string) (options : Options) (dir : string)
  : M W (option error) :=
  let args := ["-jobname=gotex"; "-halt-on-error"] in
  let cmd := exec.Command (Command options) args in
  let cmd := exec.setDir cmd dir in
  let cmd := exec.setStdin cmd (Some document) in
  err ← Start cmd;
  match err with
  | Some e => mret (Some e)
  | None =>
      err ← Wait cmd;
      match err with
      | Some _ =>
          mret (Some (errors.New
                 ("LaTeX error. Check " +:+ path.Join [dir; "gotex.log"])))
      | None => mret None
      end
  end.

(** [needsRerun] parses the log file and attempts to determine whether
    another run is necessary to finish the document.  The file is closed
    when the function returns ([defer file.Close()]). *)
Definition needsRerun (dir : string) : M W bool :=
  r ← Open (path.Join [dir; "gotex.log"]);
  match r with
  | inr _ => mret false
  | inl file =>
      let found := scanLog (os.data file) in
      _ ← Close file;
      mret found
  end.

(** The loop of [Render]:
    [for rerun := true; rerun && runs < maxRuns; runs++ { ... }].
    It returns the error of the pass that failed, if one did, and the
    value of [runs] on leaving the loop. *)
Equations? renderLoop (document : string) (options : Options)
    (dir : string) (maxRuns : Z) (rerun : bool) (runs : Z)
  : M W (option error * Z) by wf (Z.to_nat (maxRuns - runs)) lt :=
  renderLoop document options dir maxRuns rerun runs
    with inspect (rerun && (runs <? maxRuns)) := {
    | exist _ true Hcond =>
        err ← runLatex document options dir;
        match err with
        | Some e => mret (Some e, runs)
        | None =>
            rerun' ← (if Runs options =? 0 then needsRerun dir
                      else mret rerun);
            renderLoop document options dir maxRuns rerun' (runs + 1)
        end
    | exist _ false _ => mret (None, runs) }.
Proof.
  apply andb_true_iff in Hcond as [_ Hlt]. apply Z.ltb_lt in Hlt. lia.
Qed.

(** [Render] takes the LaTeX document to be rendered as a string.  It
    returns the resulting PDF as a [[]byte].  If there's an error,
    [Render] will leave the temporary directory intact. *)
Definition Render (document : string) (options : Options)
  : M W (option (list Byte.byte) * option error) :=
  let options :=
    if String.eqb (Command options) "" then setCommand options "pdflatex"
    else options in
  r ← TempDir "" "gotex-";
  match r with
  | inr err => mret (None, Some err)
  | inl dir =>
      let maxRuns := if 0 <? Runs options then Runs options else 5 in
      '(err, runs) ← renderLoop document options dir maxRuns true 0;
      match err with
      | Some e => mret (None, Some e)
      | None =>
          r ← ReadFile (path.Join [dir; "gotex.pdf"]);
          match r with
          | inr e => mret (None, Some e)
          | inl output =>
              _ ← RemoveAll dir;
              mret (Some output, None)
          end
      end
  end.

End Gotex.

(** ** Observations on a run *)

Definition isStart (e : Event) : bool :=
  match e with StartCall _ _ => true | _ => false end.

Definition isOpen (e : Event) : bool :=
  match e with OpenCall _ _ => true | _ => false end.

Definition isReadFile (e : Event) : bool :=
  match e with ReadFileCall _ _ => true | _ => false end.

Definition isRemoveAll (e : Event) : bool :=
  match e with RemoveAllCall _ _ => true | _ => false end.

Fixpoint count (p : Event -> bool) (t : list Event) : Z :=
  match t with
  | [] => 0
  | e :: t' => (if p e then 1 else 0) + count p t'
  end.

(** The compiler invocations of a run: every call of [runLatex] starts the
    command once. *)
Definition invocations (t : list Event) : Z := count isStart t.

(** The consultations of the rerun detector: every call of [needsRerun]
    opens the log once. *)
Definition consultations (t : list Event) : Z := count isOpen t.

(** What [needsRerun] answers when opening the log gave [r]. *)
Definition answer (r : os.File + error) : bool :=
  match r with
  | inl file => scanLog (os.data file)
  | inr _ => false
  end.

(** The answers of the rerun detector in a run, in order. *)
Fixpoint answers (t : list Event) : list bool :=
  match t with
  | [] => []
  | OpenCall _ r :: t' => answer r :: answers t'
  | _ :: t' => answers t'
  end.

(** The commands a run started or waited for. *)
Fixpoint commands (t : list Event) : list exec.Cmd :=
  match t with
  | [] => []
  | StartCall c _ :: t' => c :: commands t'
  | WaitCall c _ :: t' => c :: commands t'
  | _ :: t' => commands t'
  end.

(** A call that did not fail a pass: every call but a [cmd.Start] or a
    [cmd.Wait] that returned an error. *)
Definition passOk (e : Event) : bool :=
  match e with
  | StartCall _ (Some _) => false
  | WaitCall _ (Some _) => false
  | _ => true
  end.

(** For each compiler invocation of a run, in order, what the rerun
    detector answered after it: [answerAfter t] is the answer of the first
    consultation in [t] that comes before any further invocation, [None]
    when there is none. *)
Fixpoint answerAfter (t : list Event) : option bool :=
  match t with
  | [] => None
  | OpenCall _ r :: _ => Some (answer r)
  | StartCall _ _ :: _ => None
  | _ :: t' => answerAfter t'
  end.

Fixpoint verdicts (t : list Event) : list (option bool) :=
  match t with
  | [] => []
  | StartCall _ _ :: t' => answerAfter t' :: verdicts t'
  | _ :: t' => verdicts t'
  end.

(** A run is quiet when it neither starts the compiler nor opens the
    log. *)
Definition quiet (t : list Event) : Prop :=
  count isStart t = 0 /\ count isOpen t = 0.

(** The command [runLatex] prepares for [document] in [dir]: the
    executable of the options with the two fixed arguments, the working
    directory [dir] and the document on standard input. *)
Definition latexCmd (document : string) (options : Options) (dir : string)
  : exec.Cmd :=
  {| exec.Path := Command options;
     exec.Args := [Command options; "-jobname=gotex"; "-halt-on-error"];
     exec.Dir := dir;
     exec.Stdin := Some document |}.

(** The options [Render] works with: an empty command is ["pdflatex"]. *)
Definition withDefaults (options : Options) : Options :=
  if String.eqb (Command options) "" then setCommand options "pdflatex"
  else options.

(** The lines of a log: the text between its newlines, as
    [strings.Split(data, "\n")] gives it (a log that ends in a newline
    has an empty last line). *)
Fixpoint splitLines (data : string) : list string :=
  match data with
  | EmptyString => [EmptyString]
  | String c data' =>
      if Ascii.eqb c bufio.newline then EmptyString :: splitLines data'
      else match splitLines data' with
           | line :: ls => String c line :: ls
           | [] => [String c EmptyString]
           end
  end.

(** The lines a Scanner gets to: those before the first line that is too
    long for its buffer. *)
Fixpoint fitting (ls : list string) : list string :=
  match ls with
  | [] => []
  | l :: ls' =>
      if bufio.MaxScanTokenSize <=? len l then [] else l :: fitting ls'
  end.

(** Some line of [ls] contains the rerun marker. *)
Definition marked (ls : list string) : bool :=
  existsb (fun l => Contains l rerunMarker) ls.

(** A string of [n] bytes [c]. *)
Fixpoint replicate (n : nat) (c : ascii) : string :=
  match n with
  | O => EmptyString
  | S n' => String c (replicate n' c)
  end.

(** ** The runs of the loop, as a relation

    [loopRun document options dir maxRuns rerun runs w r w' t]: entered
    with [rerun] and [runs] in the world [w], the loop of [Render] leaves
    with result [r] in the world [w'] after the calls [t].  One rule for
    each way through the loop: the condition fails, the pass fails, the
    pass succeeds and the loop goes on. *)
Section LoopRelation.

Context {W : Type} `{Host W}.
Variables (document : string) (options : Options) (dir : string)
          (maxRuns : Z).

Inductive loopRun
  : bool -> Z -> W -> option error * Z -> W -> list Event -> Prop :=
| loop_exit rerun runs w :
    rerun && (runs <? maxRuns) = false ->
    loopRun rerun runs w (None, runs) w []
| loop_fail rerun runs w e w1 t1 :
    rerun && (runs <? maxRuns) = true ->
    runLatex document options dir w = (Some e, w1, t1) ->
    loopRun rerun runs w (Some e, runs) w1 t1
| loop_pass rerun runs w w1 t1 rerun' w2 t2 r w3 t3 :
    rerun && (runs <? maxRuns) = true ->
    runLatex document options dir w = (None, w1, t1) ->
    (if Runs options =? 0 then needsRerun dir else mret rerun) w1
      = (rerun', w2, t2) ->
    loopRun rerun' (runs + 1) w2 r w3 t3 ->
    loopRun rerun runs w r w3 (t1 ++ t2 ++ t3).

End LoopRelation.

(** ** The runs of [Render], as a relation

    [renderRun document options w res t]: started in the world [w],
    [Render] returns [res] after the calls [t].  One rule for each
    [return] of the function. *)

Definition maxRunsOf (options : Options) : Z :=
  if 0 <? Runs options then Runs options else 5.

Definition logOf (dir : string) : string := path.Join [dir; "gotex.log"].
Definition pdfOf (dir : string) : string := path.Join [dir; "gotex.pdf"].

(** The parts of what a computation returns. *)
Definition result {W A} (x : A * W * list Event) : A := x.1.1.
Definition trace {W A} (x : A * W * list Event) : list Event := x.2.
Definition worldAfter {W A} (x : A * W * list Event) : W := x.1.2.

Section RenderRelation.

Context {W : Type} `{Host W}.
Variables (document : string) (options : Options) (w : W).

Let loop dir :=
  loopRun document (withDefaults options) dir (maxRunsOf options) true 0.
Let made dir := TempDirCall "" "gotex-" (inl dir).

Inductive renderRun
  : option (list Byte.byte) * option error -> W -> list Event -> Prop :=
| run_noDir err w1 :
    ioutil_TempDir "" "gotex-" w = (inr err, w1) ->
    renderRun (None, Some err) w1 [TempDirCall "" "gotex-" (inr err)]
| run_passFailed dir w1 e runs w2 tl :
    ioutil_TempDir "" "gotex-" w = (inl dir, w1) ->
    loop dir w1 (Some e, runs) w2 tl ->
    renderRun (None, Some e) w2 (made dir :: tl)
| run_noArtifact dir w1 runs w2 tl e w3 :
    ioutil_TempDir "" "gotex-" w = (inl dir, w1) ->
    loop dir w1 (None, runs) w2 tl ->
    ioutil_ReadFile (pdfOf dir) w2 = (inr e, w3) ->
    renderRun (None, Some e) w3
      (made dir :: tl ++ [ReadFileCall (pdfOf dir) (inr e)])
| run_done dir w1 runs w2 tl output w3 rc w4 :
    ioutil_TempDir "" "gotex-" w = (inl dir, w1) ->
    loop dir w1 (None, runs) w2 tl ->
    ioutil_ReadFile (pdfOf dir) w2 = (inl output, w3) ->
    os_RemoveAll dir w3 = (rc, w4) ->
    renderRun (Some output, None) w4
      (made dir :: tl ++ [ReadFileCall (pdfOf dir) (inl output);
                          RemoveAllCall dir rc]).

End RenderRelation.

(** ** A scripted host

    A host for running the package on concrete inputs: the compiler is a
    script, one entry for each time it is started, and the filesystem is a
    map from names to contents. *)
Module Scripted.

(** What one run of the compiler does: fail to start, or run, write its
    log and its output in the working directory (when it has any) and
    exit. *)
Record Pass : Type := mkPass {
  startErr : option error;
  log : option string;
  pdf : option string;
  exitErr : option error
}.

Record World : Type := mkWorld {
  tempDir : string + error;
  script : list Pass;
  removeErr : option error;
  dirs : gset string;
  files : gmap string string
}.

Definition write (name : string) (c : option string)
    (fs : gmap string string) : gmap string string :=
  match c with
  | Some d => <[name := d]> fs
  | None => fs
  end.

Definition notFound (op name : string) : error :=
  PathError op name "no such file or directory".

Definition mkdirTemp (dir pattern : string) (w : World)
  : (string + error) * World :=
  match tempDir w with
  | inl d =>
      (inl d, mkWorld (tempDir w) (script w) (removeErr w)
                ({[d]} ∪ dirs w) (files w))
  | inr e => (inr e, w)
  end.

Definition start (c : exec.Cmd) (w : World) : option error * World :=
  match script w with
  | [] =>
      (Some (ExecError (exec.Path c) "executable file not found in $PATH"),
       w)
  | p :: ps =>
      match startErr p with
      | Some e =>
          (Some e, mkWorld (tempDir w) ps (removeErr w) (dirs w) (files w))
      | None => (None, w)
      end
  end.

Definition wait (c : exec.Cmd) (w : World) : option error * World :=
  match script w with
  | [] => (Some (errorString "exec: not started"), w)
  | p :: ps =>
      (exitErr p,
       mkWorld (tempDir w) ps (removeErr w) (dirs w)
         (write (path.Join [exec.Dir c; "gotex.pdf"]) (pdf p)
            (write (path.Join [exec.Dir c; "gotex.log"]) (log p)
               (files w))))
  end.

Definition open (name : string) (w : World) : (os.File + error) * World :=
  match files w !! name with
  | Some d => (inl (os.mkFile name d), w)
  | None => (inr (notFound "open" name), w)
  end.

Definition close (f : os.File) (w : World) : option error * World :=
  (None, w).

Definition readFile (name : string) (w : World)
  : (list Byte.byte + error) * World :=
  match files w !! name with
  | Some d => (inl (list_byte_of_string d), w)
  | None => (inr (notFound "open" name), w)
  end.

Definition removeAll (name : string) (w : World) : option error * World :=
  match removeErr w with
  | Some e => (Some e, w)
  | None =>
      (None,
       mkWorld (tempDir w) (script w) (removeErr w) (dirs w ∖ {[name]})
         (filter (fun kv => HasPrefix (fst kv) (name +:+ "/") = false)
            (files w)))
  end.

#[global] Instance host : Host World := {|
  ioutil_TempDir := mkdirTemp;
  cmd_Start := start;
  cmd_Wait := wait;
  os_Open := open;
  file_Close := close;
  ioutil_ReadFile := readFile;
  os_RemoveAll := removeAll
|}.

(** A world with nothing on disk where the next temporary directory is
    ["/tmp/gotex-1"] and the compiler follows [ps]. *)
Definition world (ps : list Pass) : World :=
  mkWorld (inl "/tmp/gotex-1") ps None ∅ ∅.

Definition lf : string := String bufio.newline "".

(** A pass that succeeds and whose log asks for another run. *)
Definition again : Pass :=
  mkPass None
    (Some ("Label(s) may have changed. Rerun to get cross-references right."
           +:+ lf))
    (Some "%PDF-1.5") None.

(** A pass that succeeds and whose log asks for nothing. *)
Definition finished : Pass :=
  mkPass None (Some ("Output written on gotex.pdf (1 page)." +:+ lf))
    (Some "%PDF-1.5") None.

(** A pass on a document with an error: a log, no output, exit status 1. *)
Definition failing : Pass :=
  mkPass None (Some ("! Undefined control sequence." +:+ lf)) None
    (Some (ExitError 1)).

(** The compiler cannot be started. *)
Definition missing : Pass :=
  mkPass (Some (ExecError "pdflatex" "executable file not found in $PATH"))
    None None None.

(** The document of the package's own test, and its invalid one. *)
Definition article : string :=
  "\documentclass[12pt]{article} \begin{document} " +:+
  "This is a LaTeX document. \end{document}".

Definition invalid : string := "\error \invalid".

(** A world where the temporary directory cannot be made. *)
Definition noTemp : World :=
  mkWorld (inr (PathError "mkdir" "/tmp/gotex-1" "permission denied"))
    [finished] None ∅ ∅.

(** A world where the working area cannot be removed. *)
Definition stuck (ps : list Pass) : World :=
  mkWorld (inl "/tmp/gotex-1") ps
    (Some (PathError "unlinkat" "/tmp/gotex-1" "permission denied")) ∅ ∅.

(** A world with a working area that holds the log [text]. *)
Definition withLog (text : string) : World :=
  mkWorld (inl "/tmp/gotex-2") [] None {["/tmp/gotex-1"]}
    {["/tmp/gotex-1/gotex.log" := text]}.

(** A log whose first line has [bufio.MaxScanTokenSize] bytes and whose
    second line asks for another run. *)
Definition longLog : string :=
  replicate (Z.to_nat bufio.MaxScanTokenSize) "x" +:+ lf +:+
  "Label(s) may have changed. Rerun to get cross-references right." +:+ lf.

End Scripted.

(** ** What a run shows of the way [Render] treats its host *)

(** The error that a call hands to [Render], if it failed in a way that
    [Render] reports: [ioutil.TempDir], [cmd.Start] and [ioutil.ReadFile]
    with their own error, [cmd.Wait] with the error [runLatex] makes up
    for it.  The errors of [os.Open], [file.Close] and [os.RemoveAll] are
    not reported. *)
Definition failure (e : Event) : option error :=
  match e with
  | TempDirCall _ _ (inr err) => Some err
  | StartCall _ (Some err) => Some err
  | WaitCall c (Some _) =>
      Some (errors.New ("LaTeX error. Check " +:+ logOf (exec.Dir c)))
  | ReadFileCall _ (inr err) => Some err
  | _ => None
  end.

(** A call that stays in the working area [dir]: a command run there, the
    log or the artifact of [dir], the removal of [dir] itself.  Closing a
    file names no path; making a directory is not such a call. *)
Definition inArea (dir : string) (e : Event) : Prop :=
  match e with
  | TempDirCall _ _ _ => False
  | StartCall c _ => exec.Dir c = dir
  | WaitCall c _ => exec.Dir c = dir
  | OpenCall name _ => name = logOf dir
  | CloseCall _ _ => True
  | ReadFileCall name _ => name = pdfOf dir
  | RemoveAllCall name _ => name = dir
  end.

(** A run that leaves nothing behind it: a command that started is
    waited for at once, and only then; a command that did not start ends
    the run; a file that was opened is closed at once, and only then. *)
Inductive hygienic : list Event -> Prop :=
| hygienic_nil : hygienic []
| hygienic_run c r t :
    hygienic t -> hygienic (StartCall c None :: WaitCall c r :: t)
| hygienic_not_started c e : hygienic [StartCall c (Some e)]
| hygienic_scan name f r t :
    hygienic t -> hygienic (OpenCall name (inl f) :: CloseCall f r :: t)
| hygienic_not_opened name e t :
    hygienic t -> hygienic (OpenCall name (inr e) :: t)
| hygienic_TempDir dir pattern r t :
    hygienic t -> hygienic (TempDirCall dir pattern r :: t)
| hygienic_ReadFile name r t :
    hygienic t -> hygienic (ReadFileCall name r :: t)
| hygienic_RemoveAll name r t :
    hygienic t -> hygienic (RemoveAllCall name r :: t).

(** ** Names in a directory *)

(** A plain file name: not empty, not ["."] or [".."], without slash. *)
Definition plainName (name : string) : Prop :=
  name <> "" /\ name <> "." /\ name <> ".." /\
  ~ In path.slash (list_ascii_of_string name).

(** What [path.Clean] keeps of a path: elements that are not empty, not
    ["."] and hold no slash. *)
Definition kept (e : string) : Prop :=
  e <> "" /\ e <> "." /\ ~ In path.slash (list_ascii_of_string e).

(** The file [name] of the directory whose clean path is [d]. *)
Definition inDir (d name : string) : string :=
  if String.eqb d "/" then "/" +:+ name
  else if String.eqb d "." then name
  else d +:+ "/" +:+ name.

(** * Properties *)

(** ** The functions, call by call *)

Section Unfolding.

Context {W : Type} `{Host W}.

Lemma runLatex_eq document options dir (w : W) :
  runLatex document options dir w =
  let c := latexCmd document options dir in
  match cmd_Start c w with
  | (Some e, w1) => (Some e, w1, [StartCall c (Some e)])
  | (None, w1) =>
      match cmd_Wait c w1 with
      | (Some e, w2) =>
          (Some (errors.New
                   ("LaTeX error. Check " +:+ path.Join [dir; "gotex.log"])),
           w2, [StartCall c None; WaitCall c (Some e)])
      | (None, w2) => (None, w2, [StartCall c None; WaitCall c None])
      end
  end.
Proof.
  unfold runLatex, mbind, M_bind, mret, M_ret, Start, Wait, call, latexCmd.
  cbn. destruct (cmd_Start _ w) as [[e|] w1]; [reflexivity|].
  destruct (cmd_Wait _ w1) as [[e|] w2]; reflexivity.
Qed.

Lemma needsRerun_eq dir (w : W) :
  needsRerun dir w =
  let name := path.Join [dir; "gotex.log"] in
  match os_Open name w with
  | (inr e, w1) => (false, w1, [OpenCall name (inr e)])
  | (inl file, w1) =>
      let '(r, w2) := file_Close file w1 in
      (scanLog (os.data file), w2,
       [OpenCall name (inl file); CloseCall file r])
  end.
Proof.
  unfold needsRerun, mbind, M_bind, mret, M_ret, Open, Close, call.
  cbn. destruct (os_Open _ w) as [[file|e] w1]; [|reflexivity].
  destruct (file_Close file w1) as [r w2]. reflexivity.
Qed.

Lemma renderLoop_eq document options dir maxRuns rerun runs :
  renderLoop document options dir maxRuns rerun runs =
  if rerun && (runs <? maxRuns) then
    err ← runLatex document options dir;
    match err with
    | Some e => mret (Some e, runs)
    | None =>
        rerun' ← (if Runs options =? 0 then needsRerun dir
                  else mret rerun);
        renderLoop document options dir maxRuns rerun' (runs + 1)
    end
  else mret (None, runs).
Proof.
  rewrite renderLoop_equation_1.
  unfold renderLoop_unfold_clause_1, inspect.
  destruct (rerun && (runs <? maxRuns)); reflexivity.
Qed.

Lemma scanLog_eq data :
  scanLog data =
  match bufio.Scan data with
  | bufio.Token text rest =>
      if Contains text rerunMarker then true else scanLog rest
  | bufio.Done => false
  end.
Proof.
  rewrite scanLog_equation_1.
  unfold scanLog_unfold_clause_1, inspect.
  destruct (bufio.Scan data); reflexivity.
Qed.

End Unfolding.

(** ** Counting calls *)

Lemma count_app p (t1 t2 : list Event) :
  count p (t1 ++ t2) = count p t1 + count p t2.
Proof.
  induction t1 as [|e t1 IH]; cbn [count app]; [reflexivity|]. lia.
Qed.

Lemma count_nonneg p (t : list Event) : 0 <= count p t.
Proof.
  induction t as [|e t IH]; cbn [count]; [lia|]. destruct (p e); lia.
Qed.

Lemma verdicts_length (t : list Event) :
  Z.of_nat (length (verdicts t)) = invocations t.
Proof.
  unfold invocations.
  induction t as [|e t IH]; [reflexivity|].
  destruct e; cbn [verdicts count isStart length]; lia.
Qed.

Lemma commands_app (t1 t2 : list Event) :
  commands (t1 ++ t2) = commands t1 ++ commands t2.
Proof.
  induction t1 as [|e t1 IH]; [reflexivity|].
  destruct e; cbn [commands app]; rewrite ?IH; reflexivity.
Qed.

Lemma quiet_inv e t :
  quiet (e :: t) -> isStart e = false /\ isOpen e = false /\ quiet t.
Proof.
  unfold quiet. cbn [count].
  pose proof (count_nonneg isStart t). pose proof (count_nonneg isOpen t).
  destruct (isStart e), (isOpen e); intros [? ?];
    repeat split; first [reflexivity | lia].
Qed.

Lemma answerAfter_quiet t : quiet t -> answerAfter t = None.
Proof.
  induction t as [|e t IH]; [reflexivity|].
  intros (Hs & Ho & Ht)%quiet_inv.
  destruct e; try discriminate; cbn [answerAfter]; auto.
Qed.

Lemma verdicts_quiet t : quiet t -> verdicts t = [].
Proof.
  induction t as [|e t IH]; [reflexivity|].
  intros (Hs & Ho & Ht)%quiet_inv.
  destruct e; try discriminate; cbn [verdicts]; auto.
Qed.

Lemma answerAfter_app_quiet t q :
  quiet q -> answerAfter (t ++ q) = answerAfter t.
Proof.
  intros Hq. induction t as [|e t IH]; cbn [app].
  - now apply answerAfter_quiet.
  - destruct e; cbn [answerAfter]; auto.
Qed.

Lemma verdicts_app_quiet t q : quiet q -> verdicts (t ++ q) = verdicts t.
Proof.
  intros Hq. induction t as [|e t IH]; cbn [app].
  - now apply verdicts_quiet.
  - destruct e; cbn [verdicts]; rewrite ?IH, ?answerAfter_app_quiet; auto.
Qed.

Lemma count_none_In p (t : list Event) e :
  count p t = 0 -> In e t -> p e = false.
Proof.
  induction t as [|a t IH]; cbn [count In]; [easy|].
  pose proof (count_nonneg p t). intros Hc [->|Hin].
  - destruct (p e); [lia|reflexivity].
  - apply IH; [|assumption]. destruct (p a); lia.
Qed.

(** The first call of a kind in a run: what a run holds before any call
    of that kind is a prefix of what it holds before each of them. *)
Lemma first_call_prefix p (pre post t1 t2 : list Event) x y :
  count p pre = 0 -> p y = true ->
  pre ++ x :: post = t1 ++ y :: t2 ->
  exists rest, t1 = pre ++ rest.
Proof.
  revert t1. induction pre as [|a pre IH]; intros t1 Hc Hy E.
  - now exists t1.
  - cbn [count] in Hc. pose proof (count_nonneg p pre).
    destruct t1 as [|b t1]; cbn [app] in E; injection E as -> E.
    + rewrite Hy in Hc. lia.
    + destruct (IH t1) as [rest ->];
        [destruct (p b); lia|assumption|assumption|].
      now exists rest.
Qed.

(** ** The loop is a run of the relation *)

Section LoopProperties.

Context {W : Type} `{Host W}.
Variables (document : string) (options : Options) (dir : string)
          (maxRuns : Z).

Let c := latexCmd document options dir.
Let logName := path.Join [dir; "gotex.log"].

Lemma renderLoop_run rerun runs (w : W) :
  loopRun document options dir maxRuns rerun runs w
    (renderLoop document options dir maxRuns rerun runs w).1.1
    (renderLoop document options dir maxRuns rerun runs w).1.2
    (renderLoop document options dir maxRuns rerun runs w).2.
Proof.
  remember (Z.to_nat (maxRuns - runs)) as n eqn:En.
  revert rerun runs w En.
  induction n as [n IH] using lt_wf_ind. intros rerun runs w En.
  rewrite renderLoop_eq.
  destruct (rerun && (runs <? maxRuns)) eqn:Hcond.
  - assert (Hlt : runs < maxRuns).
    { apply andb_true_iff in Hcond as [_ Hlt]. now apply Z.ltb_lt. }
    unfold mbind, M_bind.
    destruct (runLatex document options dir w) as [[[e|] w1] t1] eqn:Hrun.
    + cbn. rewrite app_nil_r. now apply loop_fail.
    + destruct ((if Runs options =? 0 then needsRerun dir else mret rerun) w1)
        as [[rerun' w2] t2] eqn:Hdet.
      specialize (IH (Z.to_nat (maxRuns - (runs + 1))) ltac:(lia)
                    rerun' (runs + 1) w2 eq_refl).
      destruct (renderLoop document options dir maxRuns rerun' (runs + 1) w2)
        as [[r w3] t3].
      cbn in IH |- *. eapply loop_pass; eauto.
  - cbn. now apply loop_exit.
Qed.

(** What one pass leaves in the trace. *)
Lemma runLatex_fail (w : W) e w1 t1 :
  runLatex document options dir w = (Some e, w1, t1) ->
  t1 = [StartCall c (Some e)] \/
  exists e', t1 = [StartCall c None; WaitCall c (Some e')].
Proof.
  rewrite runLatex_eq. cbn zeta. fold c.
  destruct (cmd_Start c w) as [[e0|] w0].
  - intros [= <- <- <-]. now left.
  - destruct (cmd_Wait c w0) as [[e0|] w0']; [|discriminate].
    intros [= <- <- <-]. right. now exists e0.
Qed.

Lemma runLatex_ok (w : W) w1 t1 :
  runLatex document options dir w = (None, w1, t1) ->
  t1 = [StartCall c None; WaitCall c None].
Proof.
  rewrite runLatex_eq. cbn zeta. fold c.
  destruct (cmd_Start c w) as [[e0|] w0]; [discriminate|].
  destruct (cmd_Wait c w0) as [[e0|] w0']; [discriminate|].
  now intros [= <- <-].
Qed.

(** What the step after a pass leaves in the trace: nothing when the
    number of runs is fixed, one consultation of the detector in
    automagic mode. *)
Lemma detect_fixed rerun (w1 : W) rerun' w2 t2 :
  Runs options <> 0 ->
  (if Runs options =? 0 then needsRerun dir else mret rerun) w1
    = (rerun', w2, t2) ->
  rerun' = rerun /\ t2 = [].
Proof.
  intros Hne. destruct (Z.eqb_spec (Runs options) 0) as [|_]; [easy|].
  now intros [= <- <- <-].
Qed.

Lemma detect_auto rerun (w1 : W) rerun' w2 t2 :
  Runs options = 0 ->
  (if Runs options =? 0 then needsRerun dir else mret rerun) w1
    = (rerun', w2, t2) ->
  exists r, rerun' = answer r /\
    (t2 = [OpenCall logName r] \/
     exists f rc, t2 = [OpenCall logName r; CloseCall f rc]).
Proof.
  intros ->. cbn [Z.eqb]. rewrite needsRerun_eq. cbn zeta. fold logName.
  destruct (os_Open logName w1) as [[file|e] w0].
  - destruct (file_Close file w0) as [rc w0'].
    intros [= <- <- <-]. exists (inl file). split; [reflexivity|].
    right. now exists file, rc.
  - intros [= <- <- <-]. exists (inr e). split; [reflexivity|]. now left.
Qed.

Lemma detect_calls rerun (w1 : W) rerun' w2 t2 :
  (if Runs options =? 0 then needsRerun dir else mret rerun) w1
    = (rerun', w2, t2) ->
  commands t2 = [] /\ invocations t2 = 0 /\ count isReadFile t2 = 0 /\
  count isRemoveAll t2 = 0 /\ forallb passOk t2 = true.
Proof.
  intros Hdet. destruct (Z.eq_dec (Runs options) 0) as [Hz|Hnz].
  - destruct (detect_auto _ _ _ _ _ Hz Hdet) as (r & _ & [->|(f & rc & ->)]);
      repeat split; reflexivity.
  - destruct (detect_fixed _ _ _ _ _ Hnz Hdet) as [_ ->].
    repeat split; reflexivity.
Qed.

(** ** Invariants of the loop, by induction on its runs *)

Lemma loopRun_calls rerun runs (w : W) r w' t :
  loopRun document options dir maxRuns rerun runs w r w' t ->
  Forall (eq c) (commands t) /\ count isReadFile t = 0 /\
  count isRemoveAll t = 0.
Proof.
  induction 1 as [ | ? ? ? ? ? ? _ Hrun
                   | ? ? ? ? ? ? ? ? ? ? ? _ Hrun Hdet _ IH ].
  - repeat split. constructor.
  - apply runLatex_fail in Hrun as [->|[e' ->]];
      repeat split; cbn; repeat constructor.
  - apply runLatex_ok in Hrun as ->.
    apply detect_calls in Hdet as (Hc & _ & Hr & Hd & _).
    destruct IH as (IHc & IHr & IHd).
    rewrite !commands_app, !count_app, Hc, Hr, Hd, IHr, IHd.
    repeat split. cbn. now repeat constructor.
Qed.

(** The pass counter never leaves the interval from its first value to
    [maxRuns]: [runs++] cannot overflow. *)
Lemma renderLoop_runs_bounds rerun runs (w : W) r w' t :
  loopRun document options dir maxRuns rerun runs w r w' t ->
  runs <= r.2 /\ (runs <= maxRuns -> r.2 <= maxRuns).
Proof.
  induction 1 as [ | ? ? ? ? ? ? Hcond _
                   | ? ? ? ? ? ? ? ? ? ? ? Hcond _ _ _ IH ]; cbn [snd] in *.
  - lia.
  - lia.
  - apply andb_true_iff in Hcond as [_ Hlt%Z.ltb_lt]. lia.
Qed.

(** Every round of the loop invokes the compiler once; the counter
    counts the rounds that completed. *)
Lemma loopRun_invocations rerun runs (w : W) r w' t :
  loopRun document options dir maxRuns rerun runs w r w' t ->
  invocations t = r.2 - runs + match r.1 with Some _ => 1 | None => 0 end.
Proof.
  unfold invocations.
  induction 1 as [ | ? ? ? ? ? ? _ Hrun
                   | ? ? ? ? ? ? ? ? ? ? ? _ Hrun Hdet _ IH ];
    cbn [fst snd] in *.
  - cbn. lia.
  - apply runLatex_fail in Hrun as [->|[e' ->]]; cbn; lia.
  - apply runLatex_ok in Hrun as ->.
    apply detect_calls in Hdet as (_ & Hi & _). unfold invocations in Hi.
    rewrite !count_app, Hi, IH. cbn. lia.
Qed.

(** The loop returns an error exactly when a pass failed. *)
Lemma loopRun_passOk rerun runs (w : W) r w' t :
  loopRun document options dir maxRuns rerun runs w r w' t ->
  forallb passOk t = match r.1 with Some _ => false | None => true end.
Proof.
  induction 1 as [ | ? ? ? ? ? ? _ Hrun
                   | ? ? ? ? ? ? ? ? ? ? ? _ Hrun Hdet _ IH ];
    cbn [fst snd] in *.
  - reflexivity.
  - apply runLatex_fail in Hrun as [->|[e' ->]]; reflexivity.
  - apply runLatex_ok in Hrun as ->.
    apply detect_calls in Hdet as (_ & _ & _ & _ & Hp).
    rewrite !forallb_app, Hp, IH. reflexivity.
Qed.

(** Entered with [rerun] set and passes left, the loop invokes the
    compiler. *)
Lemma loopRun_first runs (w : W) r w' t :
  loopRun document options dir maxRuns true runs w r w' t ->
  runs < maxRuns -> 1 <= invocations t.
Proof.
  intros Hrun Hlt. pose proof (loopRun_invocations _ _ _ _ _ _ Hrun) as Hi.
  pose proof (renderLoop_runs_bounds _ _ _ _ _ _ Hrun) as [Hle _].
  inversion Hrun as [ ? ? ? Hcond | | ? ? ? ? ? ? ? ? ? ? ? _ _ _ Hrest ];
    subst; cbn [fst snd] in *.
  - apply andb_false_iff in Hcond as [|Hc%Z.ltb_ge]; [discriminate|lia].
  - lia.
  - apply renderLoop_runs_bounds in Hrest as [Hle' _].
    destruct r as [[e|] runs']; cbn [fst snd] in *; lia.
Qed.

(** With a fixed number of runs the detector is never consulted, and
    the loop ends, unless a pass fails, when the counter reaches
    [maxRuns]. *)
Lemma loopRun_fixed rerun runs (w : W) r w' t :
  Runs options <> 0 ->
  loopRun document options dir maxRuns rerun runs w r w' t ->
  consultations t = 0 /\
  (rerun = true -> runs <= maxRuns -> r.1 = None -> r.2 = maxRuns).
Proof.
  intros Hnz. unfold consultations.
  induction 1 as [ ? ? ? Hcond | ? ? ? ? ? ? _ Hrun
                   | ? ? ? ? ? ? ? ? ? ? ? Hcond Hrun Hdet _ IH ];
    cbn [fst snd] in *.
  - split; [reflexivity|]. intros -> Hle _.
    apply Z.ltb_ge in Hcond. lia.
  - split; [|discriminate].
    apply runLatex_fail in Hrun as [->|[e' ->]]; reflexivity.
  - apply runLatex_ok in Hrun as ->.
    apply (detect_fixed _ _ _ _ _ Hnz) in Hdet as [-> ->].
    destruct IH as [IHc IHr]. split.
    + rewrite !count_app, IHc. reflexivity.
    + intros Hr Hle. apply andb_true_iff in Hcond as [_ Hlt%Z.ltb_lt].
      apply IHr; [assumption|lia].
Qed.

(** In automagic mode every pass that completes gets a verdict.  A run
    that ends without error passed through yes after yes up to its last
    verdict, which is a no unless the counter reached [maxRuns]; a run
    that ends in error passed through yes after yes up to the failing
    pass, which gets no verdict. *)
Lemma loopRun_auto rerun runs (w : W) r w' t :
  Runs options = 0 ->
  loopRun document options dir maxRuns rerun runs w r w' t ->
  (rerun && (runs <? maxRuns) = false -> t = [] /\ r = (None, runs)) /\
  (rerun && (runs <? maxRuns) = true ->
   match r.1 with
   | Some _ => exists k, verdicts t = repeat (Some true) k ++ [None]
   | None =>
       exists k b, verdicts t = repeat (Some true) k ++ [Some b] /\
                   (b = false \/ r.2 = maxRuns)
   end).
Proof.
  intros Hz.
  induction 1 as [ ? ? ? Hcond | ? ? ? ? ? ? Hcond Hrun
                   | ? ? ? ? ? ? ? ? ? ? ? Hcond Hrun Hdet Hrest IH ];
    cbn [fst snd] in *.
  - split; [easy|]. intros Hc. congruence.
  - split; [intros Hc; congruence|]. intros _. exists O.
    apply runLatex_fail in Hrun as [->|[e' ->]]; reflexivity.
  - split; [intros Hc; congruence|]. intros _.
    apply runLatex_ok in Hrun as ->.
    apply (detect_auto _ _ _ _ _ Hz) in Hdet as (a & -> & Ht2).
    assert (Hv : verdicts ([StartCall c None; WaitCall c None] ++ t2 ++ t3)
                 = Some (answer a) :: verdicts t3).
    { destruct Ht2 as [->|(f & rc & ->)]; reflexivity. }
    rewrite Hv. clear Hv Ht2.
    destruct IH as [IHstop IHgo].
    destruct (answer a && (runs + 1 <? maxRuns)) eqn:Hnext.
    + apply andb_true_iff in Hnext as [Ha _]. rewrite Ha.
      specialize (IHgo eq_refl). destruct r.1.
      * destruct IHgo as [k ->]. now exists (S k).
      * destruct IHgo as (k & b & -> & Hb). now exists (S k), b.
    + destruct (IHstop eq_refl) as [-> ->]. cbn [fst snd].
      exists O, (answer a). split; [reflexivity|].
      apply andb_true_iff in Hcond as [_ Hlt%Z.ltb_lt].
      apply andb_false_iff in Hnext as [Ha|Hc%Z.ltb_ge]; [now left|].
      right. lia.
Qed.

(** The loop never invokes the compiler more often than the counter
    has room for. *)
Lemma loopRun_invocations_le rerun runs (w : W) r w' t :
  loopRun document options dir maxRuns rerun runs w r w' t ->
  runs <= maxRuns -> invocations t <= maxRuns - runs.
Proof.
  unfold invocations.
  induction 1 as [ | ? ? ? ? ? ? Hcond Hrun
                   | ? ? ? ? ? ? ? ? ? ? ? Hcond Hrun Hdet _ IH ];
    intros Hle.
  - cbn. lia.
  - apply andb_true_iff in Hcond as [_ Hlt%Z.ltb_lt].
    apply runLatex_fail in Hrun as [->|[e' ->]]; cbn; lia.
  - apply andb_true_iff in Hcond as [_ Hlt%Z.ltb_lt].
    apply runLatex_ok in Hrun as ->.
    apply detect_calls in Hdet as (_ & Hi & _). unfold invocations in Hi.
    rewrite !count_app, Hi. cbn. lia.
Qed.

(** In automagic mode, a loop in which every pass is followed by a yes
    of the detector stops when the counter reaches [maxRuns], not
    before and not after. *)
Lemma loopRun_all_yes (w : W) r w' t :
  Runs options = 0 -> 0 < maxRuns ->
  loopRun document options dir maxRuns true 0 w r w' t ->
  Forall (eq (Some true)) (verdicts t) ->
  r = (None, maxRuns) /\ invocations t = maxRuns.
Proof.
  intros Hz Hpos Hrun Hall.
  pose proof (loopRun_invocations _ _ _ _ _ _ Hrun) as Hi.
  destruct (loopRun_auto _ _ _ _ _ _ Hz Hrun) as [_ Hv].
  assert (Hgo : true && (0 <? maxRuns) = true) by now apply Z.ltb_lt.
  specialize (Hv Hgo). destruct r as [[e|] runs']; cbn [fst snd] in *.
  - destruct Hv as [k Hk]. rewrite Hk in Hall.
    apply Forall_app in Hall as [_ Hnone]. inversion Hnone; discriminate.
  - destruct Hv as (k & b & Hk & Hb). rewrite Hk in Hall.
    apply Forall_app in Hall as [_ Hlast].
    inversion Hlast as [|? ? Hbt _]; subst. injection Hbt as <-.
    destruct Hb as [Hb|Hb]; [discriminate|]. subst runs'.
    split; [reflexivity|lia].
Qed.

End LoopProperties.

(** ** [Render] is a run of the relation *)

Section RenderProperties.

Context {W : Type} `{Host W}.

Lemma Render_run document options (w : W) :
  renderRun document options w
    (result (Render document options w))
    (worldAfter (Render document options w))
    (trace (Render document options w)).
Proof.
  unfold Render, result, worldAfter, trace, mbind, M_bind, TempDir, ReadFile,
    RemoveAll, call.
  destruct (ioutil_TempDir "" "gotex-" w) as [[dir|e] w1] eqn:Htmp.
  - fold (withDefaults options).
    assert (Hmax : (if 0 <? Runs (withDefaults options)
                    then Runs (withDefaults options) else 5)
                   = maxRunsOf options).
    { unfold withDefaults, maxRunsOf.
      now destruct (String.eqb (Command options) ""). }
    rewrite Hmax.
    pose proof (renderLoop_run document (withDefaults options) dir
                  (maxRunsOf options) true 0 w1) as Hloop.
    destruct (renderLoop document (withDefaults options) dir
                (maxRunsOf options) true 0 w1) as [[[err runs] w2] tl].
    cbn [fst snd] in Hloop. destruct err as [e|].
    + cbn. replace (tl ++ []) with tl by (symmetry; apply List.app_nil_r).
      eapply run_passFailed; eauto.
    + fold (pdfOf dir).
      destruct (ioutil_ReadFile (pdfOf dir) w2) as [[output|e] w3] eqn:Hread.
      * destruct (os_RemoveAll dir w3) as [rc w4] eqn:Hrm. cbn.
        eapply run_done; eauto.
      * cbn. eapply run_noArtifact; eauto.
  - cbn. eapply run_noDir; eauto.
Qed.

Lemma Runs_withDefaults options : Runs (withDefaults options) = Runs options.
Proof.
  unfold withDefaults. now destruct (String.eqb (Command options) "").
Qed.

Lemma maxRunsOf_pos options : 0 < maxRunsOf options.
Proof.
  unfold maxRunsOf. destruct (Z.ltb_spec 0 (Runs options)); lia.
Qed.

(** Splitting the run of [Render] into its cases. *)
Ltac render_cases document options w :=
  generalize (Render_run document options w);
  generalize (result (Render document options w))
             (worldAfter (Render document options w))
             (trace (Render document options w));
  let Hrun := fresh "Hrun" in
  intros ? ? ? Hrun;
  destruct Hrun as [ err w1' Htmp
                   | dir' w1' e runs' w2 tl Htmp Hloop
                   | dir' w1' runs' w2 tl e w3 Htmp Hloop Hread
                   | dir' w1' runs' w2 tl output w3 rc w4 Htmp Hloop Hread
                       Hrm ].

(** When the number of runs is not zero the loop takes no advice: the
    detector is never consulted and the compiler is invoked [maxRuns]
    times, unless the working area cannot be made or a pass fails. *)
Lemma Render_without_detector document options (w : W) :
  Runs options <> 0 ->
  let t := trace (Render document options w) in
  consultations t = 0 /\
  invocations t <= maxRunsOf options /\
  (forall dir w1,
      ioutil_TempDir "" "gotex-" w = (inl dir, w1) ->
      forallb passOk t = true ->
      invocations t = maxRunsOf options).
Proof.
  intros Hnz0. cbn zeta.
  pose proof (maxRunsOf_pos options) as Hmax.
  assert (Hnz : Runs (withDefaults options) <> 0).
  { now rewrite Runs_withDefaults. }
  render_cases document options w.
  1: { repeat split; [cbn; lia|]. intros dir w1 Htmp'. congruence. }
  all: pose proof (loopRun_fixed _ _ _ _ _ _ _ _ _ _ Hnz Hloop) as [Hc Hr];
    pose proof (loopRun_invocations _ _ _ _ _ _ _ _ _ _ Hloop) as Hi;
    pose proof (loopRun_invocations_le _ _ _ _ _ _ _ _ _ _ Hloop
                  ltac:(lia)) as Hle;
    pose proof (loopRun_passOk _ _ _ _ _ _ _ _ _ _ Hloop) as Hok;
    unfold consultations, invocations in *;
    cbn [count isOpen isStart forallb passOk fst snd andb] in *;
    rewrite ?count_app; cbn [count isOpen isStart].
  - (* a pass failed *)
    repeat split; [lia|lia|]. intros ? ? _ Hall. congruence.
  - (* the artifact could not be read *)
    specialize (Hr eq_refl ltac:(lia) eq_refl). repeat split; lia.
  - (* the artifact was read *)
    specialize (Hr eq_refl ltac:(lia) eq_refl). repeat split; lia.
Qed.

(** C1, as amended.  With a positive number of runs N the rerun detector
    is never consulted, whatever the logs say, and the compiler is
    invoked at most N times; once the working area is created it is
    invoked exactly N times when no call of a pass returns an error. *)
Theorem Render_fixed_runs document options (w : W) :
  0 < Runs options ->
  let t := trace (Render document options w) in
  consultations t = 0 /\
  invocations t <= Runs options /\
  (forall dir w1,
      ioutil_TempDir "" "gotex-" w = (inl dir, w1) ->
      forallb passOk t = true ->
      invocations t = Runs options).
Proof.
  intros Hpos.
  assert (Hmax : maxRunsOf options = Runs options).
  { unfold maxRunsOf. destruct (Z.ltb_spec 0 (Runs options)); lia. }
  rewrite <- Hmax. apply Render_without_detector. lia.
Qed.

(** A negative number of runs is not automagic mode: the detector is
    never consulted and the compiler runs 5 times. *)
Lemma Render_negative_runs document options (w : W) :
  Runs options < 0 ->
  let t := trace (Render document options w) in
  consultations t = 0 /\
  invocations t <= 5 /\
  (forall dir w1,
      ioutil_TempDir "" "gotex-" w = (inl dir, w1) ->
      forallb passOk t = true ->
      invocations t = 5).
Proof.
  intros Hneg.
  assert (Hmax : maxRunsOf options = 5).
  { unfold maxRunsOf. destruct (Z.ltb_spec 0 (Runs options)); lia. }
  rewrite <- Hmax. apply Render_without_detector. lia.
Qed.

(** C3.  In automagic mode ([Runs = 0]) the loop of [Render] never
    invokes the compiler more than 5 times, and when the detector
    answers yes after every pass it invokes it exactly 5 times and
    stops.  So does [Render], whose loop this is, once its working area
    is created. *)
Theorem Render_auto_ceiling document options (w : W) :
  Runs options = 0 ->
  (forall dir w1,
      let t := trace (renderLoop document (withDefaults options) dir
                        (maxRunsOf options) true 0 w1) in
      invocations t <= 5 /\
      (Forall (eq (Some true)) (verdicts t) -> invocations t = 5)) /\
  (let t := trace (Render document options w) in
   invocations t <= 5 /\
   (forall dir w1,
       ioutil_TempDir "" "gotex-" w = (inl dir, w1) ->
       Forall (eq (Some true)) (verdicts t) ->
       invocations t = 5)).
Proof.
  intros Hz.
  assert (Hmax : maxRunsOf options = 5).
  { unfold maxRunsOf. now rewrite Hz. }
  assert (Hz' : Runs (withDefaults options) = 0).
  { now rewrite Runs_withDefaults. }
  assert (Hloops : forall dir w1 r w2 tl,
             loopRun document (withDefaults options) dir (maxRunsOf options)
               true 0 w1 r w2 tl ->
             invocations tl <= 5 /\
             (Forall (eq (Some true)) (verdicts tl) ->
              invocations tl = 5 /\ r.1 = None)).
  { intros dir w1 r w2 tl Hloop. rewrite Hmax in Hloop. split.
    - pose proof (loopRun_invocations_le _ _ _ _ _ _ _ _ _ _ Hloop). lia.
    - intros Hall.
      destruct (loopRun_all_yes _ _ _ 5 _ _ _ _ Hz' ltac:(lia) Hloop Hall)
        as [-> Hi].
      now split. }
  split.
  - intros dir w1. cbn zeta.
    destruct (Hloops _ _ _ _ _ (renderLoop_run document
                (withDefaults options) dir (maxRunsOf options) true 0 w1))
      as [Hle Heq].
    split; [exact Hle|]. intros Hall. now apply Heq.
  - cbn zeta. render_cases document options w;
      try (destruct (Hloops _ _ _ _ _ Hloop) as [Hle Heq]);
      unfold invocations in *; cbn [count isStart verdicts];
      rewrite ?count_app, ?verdicts_app_quiet by (split; reflexivity);
      cbn [count isStart].
    + split; [lia|]. intros dir w1 Htmp'. congruence.
    + split; [lia|]. intros ? ? _ Hall.
      destruct (Heq Hall) as [_ Hnone]. discriminate.
    + split; [lia|]. intros ? ? _ Hall. destruct (Heq Hall) as [-> _]. lia.
    + split; [lia|]. intros ? ? _ Hall. destruct (Heq Hall) as [-> _]. lia.
Qed.

(** C4.  In automagic mode, when the detector answers yes after the
    first pass, yes after the second and no after the third, the
    compiler is invoked exactly 3 times, and the next thing [Render]
    does is read the artifact of the working area. *)
Theorem Render_auto_three document options (w : W) more :
  Runs options = 0 ->
  let t := trace (Render document options w) in
  verdicts t = Some true :: Some true :: Some false :: more ->
  invocations t = 3 /\
  exists dir w1 t1 rd t2,
    ioutil_TempDir "" "gotex-" w = (inl dir, w1) /\
    t = t1 ++ ReadFileCall (pdfOf dir) rd :: t2 /\
    invocations t1 = 3 /\ count isReadFile t1 = 0 /\ invocations t2 = 0.
Proof.
  intros Hz. cbn zeta.
  assert (Hz' : Runs (withDefaults options) = 0).
  { now rewrite Runs_withDefaults. }
  pose proof (maxRunsOf_pos options) as Hmax.
  assert (Hgo : true && (0 <? maxRunsOf options) = true).
  { now apply Z.ltb_lt. }
  render_cases document options w; [discriminate|..];
    pose proof (loopRun_auto _ _ _ _ _ _ _ _ _ _ Hz' Hloop) as [_ Hv];
    pose proof (loopRun_calls _ _ _ _ _ _ _ _ _ _ Hloop) as (_ & Hrd & _);
    specialize (Hv Hgo); cbn [fst verdicts] in *;
    rewrite ?verdicts_app_quiet by (split; reflexivity).
  - (* a pass failed: it has no verdict *)
    destruct Hv as [k ->]. destruct k as [|[|[|k]]]; discriminate.
  - (* the artifact could not be read *)
    destruct Hv as (k & b & Hk & _). rewrite Hk.
    destruct k as [|[|[|k]]]; try discriminate. intros _.
    assert (Hi : invocations tl = 3).
    { rewrite <- verdicts_length, Hk. reflexivity. }
    unfold invocations in *. cbn [count isStart].
    rewrite count_app, Hi. split; [reflexivity|].
    exists dir', w1', (TempDirCall "" "gotex-" (inl dir') :: tl), (inr e), [].
    cbn [count isStart isReadFile]. now rewrite Hi, Hrd.
  - (* the artifact was read *)
    destruct Hv as (k & b & Hk & _). rewrite Hk.
    destruct k as [|[|[|k]]]; try discriminate. intros _.
    assert (Hi : invocations tl = 3).
    { rewrite <- verdicts_length, Hk. reflexivity. }
    unfold invocations in *. cbn [count isStart].
    rewrite count_app, Hi. split; [reflexivity|].
    exists dir', w1', (TempDirCall "" "gotex-" (inl dir') :: tl),
      (inl output), [RemoveAllCall dir' rc].
    cbn [count isStart isReadFile]. now rewrite Hi, Hrd.
Qed.

(** C7.  When [Render] returns an error it has not called
    [os.RemoveAll] at all: the working area is left as the compiler left
    it.  When it returns without error, its last call was
    [os.RemoveAll] on the working area, the only such call, and the
    world it leaves is the one that call left.  Whatever that call
    returned, an error included, [Render] returns the artifact and no
    error. *)
Theorem Render_cleanup document options (w : W) :
  let r := Render document options w in
  (forall e, (result r).2 = Some e -> count isRemoveAll (trace r) = 0) /\
  ((result r).2 = None ->
   exists dir w1 t0 w3 rc output,
     ioutil_TempDir "" "gotex-" w = (inl dir, w1) /\
     trace r = t0 ++ [RemoveAllCall dir rc] /\
     count isRemoveAll t0 = 0 /\
     os_RemoveAll dir w3 = (rc, worldAfter r) /\
     result r = (Some output, None)) /\
  (forall name rc,
      In (RemoveAllCall name rc) (trace r) ->
      exists output, result r = (Some output, None)).
Proof.
  cbn zeta. render_cases document options w; cbn [fst snd].
  - split; [reflexivity|]. split; [discriminate|].
    intros name rc [|[]]. discriminate.
  - pose proof (loopRun_calls _ _ _ _ _ _ _ _ _ _ Hloop) as (_ & _ & Hnr).
    split; [|split; [discriminate|]].
    + intros _ _. cbn [count isRemoveAll]. now rewrite Hnr.
    + intros name rc [|Hin]; [discriminate|].
      now apply (count_none_In _ _ _ Hnr) in Hin.
  - pose proof (loopRun_calls _ _ _ _ _ _ _ _ _ _ Hloop) as (_ & _ & Hnr).
    split; [|split; [discriminate|]].
    + intros _ _. cbn [count isRemoveAll]. now rewrite count_app, Hnr.
    + intros name rc [|Hin]; [discriminate|].
      apply in_app_or in Hin as [Hin|[|[]]]; [|discriminate].
      now apply (count_none_In _ _ _ Hnr) in Hin.
  - pose proof (loopRun_calls _ _ _ _ _ _ _ _ _ _ Hloop) as (_ & _ & Hnr).
    split; [discriminate|]. split.
    + intros _.
      exists dir', w1',
        (TempDirCall "" "gotex-" (inl dir') ::
           tl ++ [ReadFileCall (pdfOf dir') (inl output)]),
        w3, rc, output.
      split; [assumption|]. split; [|split; [|split; [assumption|reflexivity]]].
      * cbn [app]. now rewrite <- app_assoc.
      * cbn [count isRemoveAll]. now rewrite count_app, Hnr.
    + intros _ _ _. now exists output.
Qed.

(** C8.  When the temporary directory cannot be made, [Render] returns
    the error of [ioutil.TempDir] in the world that call left, and that
    call is the only one it made: no compiler, no artifact, no
    cleanup. *)
Theorem Render_no_working_area document options (w : W) err w1 :
  ioutil_TempDir "" "gotex-" w = (inr err, w1) ->
  Render document options w
  = ((None, Some err), w1, [TempDirCall "" "gotex-" (inr err)]).
Proof.
  intros Htmp. unfold Render, mbind, M_bind, TempDir, call.
  rewrite Htmp. reflexivity.
Qed.

(** C9.  Every command [Render] starts or waits for is the same one:
    the executable of the options (["pdflatex"] by default) with the
    arguments [-jobname=gotex] and [-halt-on-error] and nothing else,
    the directory returned by [ioutil.TempDir] as its working
    directory, and the whole document as its standard input. *)
Theorem Render_commands document options (w : W) dir w1 :
  ioutil_TempDir "" "gotex-" w = (inl dir, w1) ->
  Forall (eq {| exec.Path := Command (withDefaults options);
                exec.Args := [Command (withDefaults options);
                              "-jobname=gotex"; "-halt-on-error"];
                exec.Dir := dir;
                exec.Stdin := Some document |})
    (commands (trace (Render document options w))).
Proof.
  intros Hdir. fold (latexCmd document (withDefaults options) dir).
  render_cases document options w; try congruence;
    assert (dir' = dir) as -> by congruence;
    pose proof (loopRun_calls _ _ _ _ _ _ _ _ _ _ Hloop) as (Hc & _);
    cbn [commands]; rewrite ?commands_app; cbn [commands];
    rewrite ?List.app_nil_r; exact Hc.
Qed.

(** C10.  Once the working area is created the compiler is invoked at
    least once, whatever the options; whatever [Render] did before it
    read the artifact includes an invocation of the compiler; and so
    [Render] never returns an artifact without having run the
    compiler. *)
Theorem Render_compiles_first document options (w : W) :
  let r := Render document options w in
  (forall dir w1,
      ioutil_TempDir "" "gotex-" w = (inl dir, w1) ->
      1 <= invocations (trace r)) /\
  (forall t1 name rd t2,
      trace r = t1 ++ ReadFileCall name rd :: t2 ->
      1 <= invocations t1) /\
  (forall output, (result r).1 = Some output -> 1 <= invocations (trace r)).
Proof.
  cbn zeta. pose proof (maxRunsOf_pos options) as Hmax.
  assert (Hsplit : forall pre x post t1 name rd t2,
             count isReadFile pre = 0 -> 1 <= invocations pre ->
             pre ++ x :: post = t1 ++ ReadFileCall name rd :: t2 ->
             1 <= invocations t1).
  { intros pre x post t1 name rd t2 Hnone Hone E.
    apply (first_call_prefix isReadFile) in E as [rest ->];
      [|assumption|reflexivity].
    unfold invocations in *. rewrite count_app.
    pose proof (count_nonneg isStart rest). lia. }
  render_cases document options w; cbn [fst snd].
  1: { split; [intros; congruence|]. split; [|discriminate].
       intros [|? [|]] ? ? ? E; discriminate. }
  all: pose proof (loopRun_first _ _ _ _ _ _ _ _ _ Hloop Hmax) as H1;
    pose proof (loopRun_calls _ _ _ _ _ _ _ _ _ _ Hloop) as (_ & Hrd & _);
    assert (Hall : 1 <= invocations (TempDirCall "" "gotex-" (inl dir') :: tl))
      by exact H1.
  - (* a pass failed: the artifact is never read *)
    split; [intros; exact Hall|]. split; [|discriminate].
    intros t1 name rd t2 E. exfalso.
    assert (Hin : In (ReadFileCall name rd)
                    (TempDirCall "" "gotex-" (inl dir') :: tl)).
    { rewrite E. apply in_or_app. right. now left. }
    destruct Hin as [|Hin]; [discriminate|].
    now apply (count_none_In _ _ _ Hrd) in Hin.
  - (* the artifact could not be read *)
    split; [|split; [|discriminate]].
    + intros _ _ _. unfold invocations in *.
      cbn [count isStart] in *. rewrite count_app. cbn. lia.
    + intros t1 name rd t2 E.
      eapply (Hsplit (TempDirCall "" "gotex-" (inl dir') :: tl));
        [exact Hrd|exact Hall|exact E].
  - (* the artifact was read *)
    assert (Hend : 1 <= invocations
              (TempDirCall "" "gotex-" (inl dir') ::
                 tl ++ [ReadFileCall (pdfOf dir') (inl output);
                        RemoveAllCall dir' rc])).
    { unfold invocations in *. cbn [count isStart] in *.
      rewrite count_app. cbn. lia. }
    split; [intros; exact Hend|]. split; [|intros; exact Hend].
    intros t1 name rd t2 E.
    eapply (Hsplit (TempDirCall "" "gotex-" (inl dir') :: tl));
      [exact Hrd|exact Hall|exact E].
Qed.

End RenderProperties.

(** ** The rerun detector *)

Lemma HasPrefix_dropCR l : forall m,
  ~ In bufio.carriageReturn (list_ascii_of_string m) -> m <> EmptyString ->
  HasPrefix (bufio.dropCR l) m = HasPrefix l m.
Proof.
  induction l as [|a l IH]; intros m Hno Hne; [reflexivity|].
  destruct m as [|p m]; [contradiction|].
  assert (Hp : Ascii.eqb bufio.carriageReturn p = false).
  { apply Ascii.eqb_neq. intros <-. apply Hno. now left. }
  destruct l as [|a' l'].
  - cbn [bufio.dropCR].
    destruct (Ascii.eqb_spec a bufio.carriageReturn) as [->|_]; [|reflexivity].
    cbn [HasPrefix]. now rewrite Hp.
  - change (bufio.dropCR (String a (String a' l')))
      with (String a (bufio.dropCR (String a' l'))).
    cbn [HasPrefix]. f_equal.
    destruct m as [|p' m']; [now destruct (bufio.dropCR (String a' l'))|].
    apply IH; [|discriminate]. intros Hin. apply Hno. now right.
Qed.

(** Dropping the carriage return of a line neither hides nor makes up a
    rerun marker. *)
Lemma Contains_dropCR l :
  Contains (bufio.dropCR l) rerunMarker = Contains l rerunMarker.
Proof.
  induction l as [|a l IH]; [reflexivity|].
  destruct l as [|a' l'].
  - cbn [bufio.dropCR].
    destruct (Ascii.eqb_spec a bufio.carriageReturn) as [->|_]; reflexivity.
  - assert (Hd : bufio.dropCR (String a (String a' l'))
                 = String a (bufio.dropCR (String a' l'))) by reflexivity.
    assert (Hc : forall s, Contains (String a s) rerunMarker
                 = HasPrefix (String a s) rerunMarker || Contains s rerunMarker)
      by reflexivity.
    rewrite Hd, (Hc (bufio.dropCR (String a' l'))), (Hc (String a' l')), IH.
    rewrite <- Hd. f_equal.
    apply HasPrefix_dropCR; [|discriminate].
    cbn. intros Hin. repeat (destruct Hin as [Hin|Hin]; [discriminate|]).
    exact Hin.
Qed.

Lemma splitLines_cut data :
  splitLines data =
  match bufio.cutLine data with
  | (line, Some rest) => line :: splitLines rest
  | (line, None) => [line]
  end.
Proof.
  induction data as [|a data IH]; [reflexivity|].
  cbn [splitLines bufio.cutLine].
  destruct (Ascii.eqb a bufio.newline); [reflexivity|].
  rewrite IH. now destruct (bufio.cutLine data) as [line [rest|]].
Qed.

Lemma cutLine_shorter data line rest :
  bufio.cutLine data = (line, Some rest) ->
  (String.length rest < String.length data)%nat.
Proof.
  revert line.
  induction data as [|a data IH]; intros line; cbn; [discriminate|].
  destruct (Ascii.eqb a bufio.newline).
  - intros [= _ <-]. lia.
  - destruct (bufio.cutLine data) as [l [r|]]; [|discriminate].
    intros [= _ <-]. specialize (IH _ eq_refl). lia.
Qed.

(** The loop over the Scanner finds the marker exactly when one of the
    lines the Scanner delivers holds it. *)
Lemma scanLog_lines data :
  scanLog data = marked (fitting (splitLines data)).
Proof.
  remember (String.length data) as n eqn:En. revert data En.
  induction n as [n IH] using lt_wf_ind. intros data ->.
  rewrite scanLog_eq, splitLines_cut. unfold bufio.Scan.
  destruct data as [|a data]; [reflexivity|].
  destruct (bufio.cutLine (String a data)) as [line rest] eqn:Hcut.
  destruct rest as [rest|]; cbn [fitting];
    destruct (bufio.MaxScanTokenSize <=? len line); try reflexivity;
    unfold marked; cbn [existsb default]; rewrite Contains_dropCR;
    destruct (Contains line rerunMarker); try reflexivity.
  apply (IH (String.length rest)); [|reflexivity].
  now apply cutLine_shorter in Hcut.
Qed.

Section Detector.

Context {W : Type} `{Host W}.

(** C5, as amended.  [needsRerun] returns true exactly when the log can
    be opened and one of the lines its Scanner delivers, those before
    the first line of 65536 bytes or more, contains the marker; it
    returns false when no such line does and when the log cannot be
    opened.  It has no other outcome: it returns a boolean and never an
    error. *)
Theorem needsRerun_answer dir (w : W) :
  result (needsRerun dir w) =
  match (os_Open (logOf dir) w).1 with
  | inl file => marked (fitting (splitLines (os.data file)))
  | inr _ => false
  end.
Proof.
  rewrite needsRerun_eq. cbn zeta. fold (logOf dir).
  destruct (os_Open (logOf dir) w) as [[file|e] w1]; [|reflexivity].
  destruct (file_Close file w1) as [rc w2]. cbn. apply scanLog_lines.
Qed.

(** C6, as amended.  When the command starts and waiting for it returns
    an error, whatever the error, [runLatex] returns a new error whose
    text points at the log of the working area.  When the command
    cannot be started [runLatex] returns the error of [cmd.Start]
    itself. *)
Theorem runLatex_failure document options dir (w : W) :
  let c := latexCmd document options dir in
  (forall w1 e w2,
      cmd_Start c w = (None, w1) -> cmd_Wait c w1 = (Some e, w2) ->
      result (runLatex document options dir w)
      = Some (errors.New ("LaTeX error. Check " +:+ logOf dir))) /\
  (forall e w1,
      cmd_Start c w = (Some e, w1) ->
      result (runLatex document options dir w) = Some e).
Proof.
  cbn zeta. rewrite runLatex_eq. cbn zeta. split.
  - intros w1 e w2 -> ->. reflexivity.
  - intros e w1 ->. reflexivity.
Qed.

End Detector.

(** * Further properties of the package *)

(** ** The shape of a pass and of a consultation *)

Section Shapes.

Context {W : Type} `{Host W}.
Variables (document : string) (options : Options) (dir : string).

Let c := latexCmd document options dir.

Lemma runLatex_shape (w : W) err w1 t1 :
  runLatex document options dir w = (err, w1, t1) ->
  (err = None /\ t1 = [StartCall c None; WaitCall c None]) \/
  (exists e, err = Some e /\ t1 = [StartCall c (Some e)]) \/
  (exists e, err = Some (errors.New ("LaTeX error. Check " +:+ logOf dir)) /\
             t1 = [StartCall c None; WaitCall c (Some e)]).
Proof.
  rewrite runLatex_eq. cbn zeta. fold c. fold (logOf dir).
  destruct (cmd_Start c w) as [[e0|] w0].
  - intros [= <- <- <-]. right. left. now exists e0.
  - destruct (cmd_Wait c w0) as [[e0|] w0']; intros [= <- <- <-].
    + right. right. now exists e0.
    + now left.
Qed.

Lemma detect_shape rerun (w1 : W) rerun' w2 t2 :
  (if Runs options =? 0 then needsRerun dir else mret rerun) w1
    = (rerun', w2, t2) ->
  t2 = [] \/
  (exists e, t2 = [OpenCall (logOf dir) (inr e)]) \/
  (exists f rc, t2 = [OpenCall (logOf dir) (inl f); CloseCall f rc]).
Proof.
  destruct (Runs options =? 0).
  - rewrite needsRerun_eq. cbn zeta. fold (logOf dir).
    destruct (os_Open (logOf dir) w1) as [[file|e] w0].
    + destruct (file_Close file w0) as [rc w0'].
      intros [= <- <- <-]. right. right. now exists file, rc.
    + intros [= <- <- <-]. right. left. now exists e.
  - intros [= <- <- <-]. now left.
Qed.

Variable maxRuns : Z.

(** The loop keeps its calls paired, and may be followed by any run that
    does so when it ends without error. *)
Lemma loopRun_hygienic rerun runs (w : W) r w' t :
  loopRun document options dir maxRuns rerun runs w r w' t ->
  hygienic t /\
  (r.1 = None -> forall q, hygienic q -> hygienic (t ++ q)).
Proof.
  induction 1 as [ | ? ? ? ? ? ? _ Hrun
                   | ? ? ? ? ? ? ? ? ? ? ? _ Hrun Hdet _ IH ];
    cbn [fst].
  - split; [constructor|]. now intros _ q Hq.
  - split; [|discriminate].
    apply runLatex_shape in Hrun as [[? _]|[(e0 & _ & ->)|(e0 & _ & ->)]];
      [discriminate| |]; repeat constructor.
  - destruct IH as [IHt IHq].
    apply runLatex_shape in Hrun as [[_ ->]|[(e0 & ? & _)|(e0 & ? & _)]];
      [|discriminate|discriminate].
    apply detect_shape in Hdet as [->|[(e0 & ->)|(f & rc & ->)]];
      cbn [app]; split; try (intros Hr q Hq; rewrite <- ?app_assoc);
      repeat (first [ apply hygienic_run | apply hygienic_scan
                    | apply hygienic_not_opened ]); auto.
Qed.

(** The loop stays in the working area it was given. *)
Lemma loopRun_inArea rerun runs (w : W) r w' t :
  loopRun document options dir maxRuns rerun runs w r w' t ->
  Forall (inArea dir) t.
Proof.
  induction 1 as [ | ? ? ? ? ? ? _ Hrun
                   | ? ? ? ? ? ? ? ? ? ? ? _ Hrun Hdet _ IH ].
  - constructor.
  - apply runLatex_shape in Hrun as [[? _]|[(e0 & _ & ->)|(e0 & _ & ->)]];
      [discriminate| |]; repeat constructor.
  - apply runLatex_shape in Hrun as [[_ ->]|[(e0 & ? & _)|(e0 & ? & _)]];
      [|discriminate|discriminate].
    apply detect_shape in Hdet as [->|[(e0 & ->)|(f & rc & ->)]];
      cbn [app]; repeat (constructor; [reflexivity || exact I|]);
      exact IH.
Qed.

(** The loop returns an error exactly when a call failed; that call is
    then its last one and the error is that call's. *)
Lemma loopRun_failure rerun runs (w : W) r w' t :
  loopRun document options dir maxRuns rerun runs w r w' t ->
  match r.1 with
  | Some e =>
      exists t0 ev, t = t0 ++ [ev] /\ failure ev = Some e /\
                    Forall (fun x => failure x = None) t0
  | None => Forall (fun x => failure x = None) t
  end.
Proof.
  induction 1 as [ | ? ? ? ? ? ? _ Hrun
                   | ? ? ? ? ? ? ? ? ? ? ? _ Hrun Hdet _ IH ];
    cbn [fst].
  - constructor.
  - apply runLatex_shape in Hrun
      as [[? _]|[(e0 & [= ->] & ->)|(e0 & [= ->] & ->)]]; [discriminate| |].
    + exists [], (StartCall c (Some e0)). repeat split. constructor.
    + exists [StartCall c None], (WaitCall c (Some e0)).
      repeat split. repeat constructor.
  - apply runLatex_shape in Hrun as [[_ ->]|[(e0 & ? & _)|(e0 & ? & _)]];
      [|discriminate|discriminate].
    assert (Ht2 : Forall (fun x => failure x = None) t2).
    { apply detect_shape in Hdet as [->|[(e0 & ->)|(f & rc & ->)]];
        repeat constructor. }
    destruct r.1 as [e|].
    + destruct IH as (t0 & ev & -> & Hev & Ht0).
      exists ([StartCall c None; WaitCall c None] ++ t2 ++ t0), ev.
      split; [now rewrite <- !app_assoc|]. split; [exact Hev|].
      apply Forall_app. split; [repeat constructor|].
      apply Forall_app. now split.
    + apply Forall_app. split; [repeat constructor|].
      apply Forall_app. now split.
Qed.

(** A loop that returns an error left before its counter reached
    [maxRuns]. *)
Lemma loopRun_error_early rerun runs (w : W) r w' t :
  loopRun document options dir maxRuns rerun runs w r w' t ->
  runs <= maxRuns -> r.1 <> None -> r.2 < maxRuns.
Proof.
  induction 1 as [ | ? ? ? ? ? ? Hcond _
                   | ? ? ? ? ? ? ? ? ? ? ? Hcond _ _ _ IH ];
    cbn [fst snd] in *; intros Hle Herr.
  - congruence.
  - now apply andb_true_iff in Hcond as [_ Hlt%Z.ltb_lt].
  - apply andb_true_iff in Hcond as [_ Hlt%Z.ltb_lt]. apply IH; [lia|easy].
Qed.

(** In automagic mode the detector is consulted once for every pass
    that completed. *)
Lemma loopRun_auto_consultations rerun runs (w : W) r w' t :
  Runs options = 0 ->
  loopRun document options dir maxRuns rerun runs w r w' t ->
  consultations t = r.2 - runs.
Proof.
  intros Hz. unfold consultations.
  induction 1 as [ | ? ? ? ? ? ? _ Hrun
                   | ? ? ? ? ? ? ? ? ? ? ? _ Hrun Hdet _ IH ];
    cbn [fst snd] in *.
  - cbn. lia.
  - apply runLatex_shape in Hrun as [[? _]|[(e0 & _ & ->)|(e0 & _ & ->)]];
      [discriminate| |]; cbn; lia.
  - apply runLatex_shape in Hrun as [[_ ->]|[(e0 & ? & _)|(e0 & ? & _)]];
      [|discriminate|discriminate].
    rewrite Hz in Hdet. cbn [Z.eqb] in Hdet.
    rewrite needsRerun_eq in Hdet. cbn zeta in Hdet.
    destruct (os_Open (path.Join [dir; "gotex.log"]) w1) as [[file|e] w0].
    + destruct (file_Close file w0) as [rc w0'].
      injection Hdet as _ _ <-. rewrite !count_app, IH. cbn. lia.
    + injection Hdet as _ _ <-. rewrite !count_app, IH. cbn. lia.
Qed.

End Shapes.

(** ** [Render], call by call *)

(** The one place of a call in a run that holds it once. *)
Lemma only_call_split p (pre post t1 t2 : list Event) x y :
  count p pre = 0 -> count p post = 0 -> p y = true ->
  pre ++ x :: post = t1 ++ y :: t2 ->
  t1 = pre /\ y = x /\ t2 = post.
Proof.
  intros Hpre Hpost Hy. revert t1.
  induction pre as [|a pre IH]; intros t1 E.
  - destruct t1 as [|b t1]; cbn [app] in E; injection E as -> E.
    + now subst.
    + exfalso. assert (Hin : In y post).
      { rewrite E. apply in_or_app. right. now left. }
      apply (count_none_In _ _ _ Hpost) in Hin. congruence.
  - cbn [count] in Hpre. pose proof (count_nonneg p pre).
    destruct t1 as [|b t1]; cbn [app] in E; injection E as -> E.
    + rewrite Hy in Hpre. lia.
    + destruct (IH ltac:(destruct (p b); lia) t1 E) as (-> & -> & ->).
      now repeat split.
Qed.

Section RenderCalls.

Context {W : Type} `{Host W}.

Ltac render_outcomes document options w :=
  generalize (Render_run document options w);
  generalize (result (Render document options w))
             (worldAfter (Render document options w))
             (trace (Render document options w));
  let Hrun := fresh "Hrun" in
  intros ? ? ? Hrun;
  destruct Hrun as [ err w1' Htmp
                   | dir' w1' e runs' w2 tl Htmp Hloop
                   | dir' w1' runs' w2 tl e w3 Htmp Hloop Hread
                   | dir' w1' runs' w2 tl output w3 rc w4 Htmp Hloop Hread
                       Hrm ].

(** X1.  [Render] stops at the first call that fails.  When it returns
    an error it returns no artifact, the last call it made is the one
    that failed, no call before it did, and the error is that call's (for
    [cmd.Wait], the message that points at the log).  When it returns no
    error it returns an artifact and no call of [ioutil.TempDir],
    [cmd.Start], [cmd.Wait] or [ioutil.ReadFile] failed. *)
Theorem Render_stops_at_failure document options (w : W) :
  let r := Render document options w in
  match (result r).2 with
  | Some e =>
      (result r).1 = None /\
      exists t0 ev, trace r = t0 ++ [ev] /\ failure ev = Some e /\
                    Forall (fun x => failure x = None) t0
  | None =>
      (exists output, (result r).1 = Some output) /\
      Forall (fun x => failure x = None) (trace r)
  end.
Proof.
  cbn zeta. render_outcomes document options w; cbn [fst snd];
    try (pose proof (loopRun_failure _ _ _ _ _ _ _ _ _ _ Hloop) as Hf;
         cbn [fst] in Hf).
  - split; [reflexivity|].
    exists [], (TempDirCall "" "gotex-" (inr err)). repeat split. constructor.
  - split; [reflexivity|]. destruct Hf as (t0 & ev & -> & Hev & Ht0).
    exists (TempDirCall "" "gotex-" (inl dir') :: t0), ev.
    repeat split; [exact Hev|]. now constructor.
  - split; [reflexivity|].
    exists (TempDirCall "" "gotex-" (inl dir') :: tl),
      (ReadFileCall (pdfOf dir') (inr e)).
    repeat split. now constructor.
  - split; [now exists output|]. constructor; [reflexivity|].
    apply Forall_app. split; [exact Hf|]. repeat constructor.
Qed.

(** X2.  The artifact is read once, when the passes are over.  Whatever
    [Render] did before a call of [ioutil.ReadFile] holds no such call
    and no failed pass; the file read is [gotex.pdf] in the directory
    [ioutil.TempDir] returned; when the read succeeds its bytes are what
    [Render] returns and the only call after it removes that directory;
    when it fails its error is what [Render] returns and no call
    follows. *)
Theorem Render_reads_artifact_last document options (w : W)
    t1 name rd t2 :
  let r := Render document options w in
  trace r = t1 ++ ReadFileCall name rd :: t2 ->
  count isReadFile t1 = 0 /\ count isReadFile t2 = 0 /\
  forallb passOk t1 = true /\
  exists dir w1,
    ioutil_TempDir "" "gotex-" w = (inl dir, w1) /\
    name = pdfOf dir /\
    match rd with
    | inl output =>
        result r = (Some output, None) /\
        exists rc, t2 = [RemoveAllCall dir rc]
    | inr e => result r = (None, Some e) /\ t2 = []
    end.
Proof.
  cbn zeta. render_outcomes document options w; intros E;
    try (pose proof (loopRun_calls _ _ _ _ _ _ _ _ _ _ Hloop)
           as (_ & Hrd & _);
         pose proof (loopRun_passOk _ _ _ _ _ _ _ _ _ _ Hloop) as Hok;
         cbn [fst] in Hok).
  - destruct t1 as [|? [|? ?]]; discriminate.
  - exfalso.
    assert (Hin : In (ReadFileCall name rd)
                    (TempDirCall "" "gotex-" (inl dir') :: tl)).
    { rewrite E. apply in_or_app. right. now left. }
    destruct Hin as [|Hin]; [discriminate|].
    now apply (count_none_In _ _ _ Hrd) in Hin.
  - apply (only_call_split isReadFile
             (TempDirCall "" "gotex-" (inl dir') :: tl) []) in E
      as (-> & [= -> ->] & ->); try reflexivity; [|exact Hrd].
    cbn [count isReadFile forallb passOk andb]. rewrite Hrd, Hok.
    repeat split. now exists dir', w1'.
  - apply (only_call_split isReadFile
             (TempDirCall "" "gotex-" (inl dir') :: tl)
             [RemoveAllCall dir' rc]) in E
      as (-> & [= -> ->] & ->); try reflexivity; [|exact Hrd].
    cbn [count isReadFile forallb passOk andb]. rewrite Hrd, Hok.
    repeat split. exists dir', w1'.
    split; [assumption|]. split; [reflexivity|]. split; [reflexivity|].
    now exists rc.
Qed.

(** X3.  [Render] makes one temporary directory, first, with the
    pattern ["gotex-"] in the default place, and every later call stays
    in that directory: the commands run there, the file opened is its
    [gotex.log], the file read is its [gotex.pdf], the tree removed is
    the directory itself. *)
Theorem Render_in_area document options (w : W) dir w1 :
  ioutil_TempDir "" "gotex-" w = (inl dir, w1) ->
  exists t,
    trace (Render document options w)
    = TempDirCall "" "gotex-" (inl dir) :: t /\
    Forall (inArea dir) t.
Proof.
  intros Hdir. render_outcomes document options w; try congruence;
    assert (dir' = dir) as -> by congruence;
    pose proof (loopRun_inArea _ _ _ _ _ _ _ _ _ _ Hloop) as Hin;
    eexists; (split; [reflexivity|]);
    rewrite ?Forall_app; repeat split; try exact Hin;
    repeat constructor.
Qed.

(** X4.  [Render] leaves no process and no open file behind: in every
    run, a command that started is waited for by the very next call and
    [cmd.Wait] is called for nothing else, a command that failed to start
    ends the run, and a log that was opened is closed by the very next
    call, which is the only use of [file.Close]. *)
Theorem Render_hygienic document options (w : W) :
  hygienic (trace (Render document options w)).
Proof.
  render_outcomes document options w;
    try (pose proof (loopRun_hygienic _ _ _ _ _ _ _ _ _ _ Hloop)
           as [Ht Hq]; cbn [fst] in Hq).
  - repeat constructor.
  - now constructor.
  - constructor. apply Hq; [reflexivity|]. repeat constructor.
  - constructor. apply Hq; [reflexivity|]. repeat constructor.
Qed.

(** X5.  Automagic mode stops at the first no.  With [Runs = 0], once
    the working area is made, the passes of a run get the verdicts yes,
    ..., yes and then one last verdict, and there are at most 5 of them.
    The last pass has no verdict exactly when it failed, and then
    [Render] returns its error; otherwise no pass failed and the last
    verdict is a no, or a yes after the 5th pass. *)
Theorem Render_auto_verdicts document options (w : W) dir w1 :
  Runs options = 0 ->
  ioutil_TempDir "" "gotex-" w = (inl dir, w1) ->
  let r := Render document options w in
  exists k last,
    verdicts (trace r) = repeat (Some true) k ++ [last] /\
    invocations (trace r) = Z.of_nat k + 1 /\
    invocations (trace r) <= 5 /\
    match last with
    | None =>
        forallb passOk (trace r) = false /\
        exists e, result r = (None, Some e)
    | Some b =>
        forallb passOk (trace r) = true /\
        consultations (trace r) = invocations (trace r) /\
        (b = false \/ invocations (trace r) = 5)
    end.
Proof.
  intros Hz Hdir. cbn zeta.
  assert (Hmax : maxRunsOf options = 5).
  { unfold maxRunsOf. now rewrite Hz. }
  assert (Hz' : Runs (withDefaults options) = 0).
  { now rewrite Runs_withDefaults. }
  assert (Hlen : forall k (last : option bool),
             Z.of_nat (length (repeat (Some true) k ++ [last]))
             = Z.of_nat k + 1).
  { intros k last. rewrite length_app, repeat_length. cbn. lia. }
  render_outcomes document options w; try congruence;
    rewrite Hmax in Hloop;
    pose proof (loopRun_auto _ _ _ _ _ _ _ _ _ _ Hz' Hloop) as [_ Hv];
    specialize (Hv eq_refl);
    pose proof (loopRun_invocations _ _ _ _ _ _ _ _ _ _ Hloop) as Hi;
    pose proof (loopRun_invocations_le _ _ _ _ _ _ _ _ _ _ Hloop
                  ltac:(lia)) as Hle;
    pose proof (loopRun_passOk _ _ _ _ _ _ _ _ _ _ Hloop) as Hok;
    pose proof (loopRun_auto_consultations _ _ _ _ _ _ _ _ _ _ Hz' Hloop)
      as Hc;
    pose proof (verdicts_length tl) as Hvl;
    unfold consultations, invocations in *;
    cbn [fst snd count isStart isOpen verdicts forallb passOk andb] in *;
    rewrite ?count_app, ?forallb_app,
      ?verdicts_app_quiet by (split; reflexivity);
    cbn [count isStart isOpen forallb passOk andb].
  - (* a pass failed *)
    destruct Hv as [k Hk]. exists k, None. rewrite Hk, Hlen in Hvl.
    split; [exact Hk|]. split; [lia|]. split; [lia|].
    split; [exact Hok|]. now exists e.
  - (* the artifact could not be read *)
    destruct Hv as (k & b & Hk & Hb). exists k, (Some b).
    rewrite Hk, Hlen in Hvl.
    split; [exact Hk|]. split; [lia|]. split; [lia|].
    split; [now rewrite Hok|]. split; [lia|].
    destruct Hb as [Hb|Hb]; [now left|right; lia].
  - (* the artifact was read *)
    destruct Hv as (k & b & Hk & Hb). exists k, (Some b).
    rewrite Hk, Hlen in Hvl.
    split; [exact Hk|]. split; [lia|]. split; [lia|].
    split; [now rewrite Hok|]. split; [lia|].
    destruct Hb as [Hb|Hb]; [now left|right; lia].
Qed.

(** X6.  The loop counts its passes.  Entered as [Render] enters it,
    with a limit that is not negative, it leaves with [runs] between 0
    and [maxRuns], [runs] being the number of passes that completed: the
    compiler was invoked [runs] times, and once more when the loop
    returns the error of a pass; so [runs++] never overflows and the
    compiler is never invoked more than [maxRuns] times. *)
Theorem renderLoop_counts_passes document options dir maxRuns (w : W) :
  0 <= maxRuns ->
  let r := renderLoop document options dir maxRuns true 0 w in
  0 <= (result r).2 <= maxRuns /\
  invocations (trace r)
  = (result r).2 + match (result r).1 with Some _ => 1 | None => 0 end /\
  invocations (trace r) <= maxRuns.
Proof.
  intros Hmax. cbn zeta.
  pose proof (renderLoop_run document options dir maxRuns true 0 w) as Hloop.
  fold (result (renderLoop document options dir maxRuns true 0 w)) in Hloop.
  fold (trace (renderLoop document options dir maxRuns true 0 w)) in Hloop.
  revert Hloop.
  generalize (result (renderLoop document options dir maxRuns true 0 w))
             (trace (renderLoop document options dir maxRuns true 0 w)).
  intros r t Hloop. cbn [fst snd] in Hloop.
  pose proof (renderLoop_runs_bounds _ _ _ _ _ _ _ _ _ _ Hloop) as [H0 Hle].
  pose proof (loopRun_invocations _ _ _ _ _ _ _ _ _ _ Hloop) as Hi.
  pose proof (loopRun_invocations_le _ _ _ _ _ _ _ _ _ _ Hloop Hmax) as Hn.
  repeat split; lia.
Qed.


End RenderCalls.

(** ** The rerun detector and the text of the log *)

Lemma HasPrefix_nil s : HasPrefix s EmptyString = true.
Proof. now destruct s. Qed.

Lemma HasPrefix_spec m : forall s,
  HasPrefix s m = true <-> exists q, s = m +:+ q.
Proof.
  induction m as [|a m IH]; intros s.
  - split; [intros _; now exists s|intros _; now destruct s].
  - destruct s as [|b s]; cbn [HasPrefix];
      [split; [discriminate|intros [q [=]]]|].
    rewrite andb_true_iff, IH. split.
    + intros [->%Ascii.eqb_eq [q ->]]. now exists q.
    + intros [q [= -> ->]]. split; [apply Ascii.eqb_refl|now exists q].
Qed.

(** [strings.Contains] finds its argument exactly where it stands. *)
Lemma Contains_spec m s :
  Contains s m = true <-> exists p q, s = p +:+ m +:+ q.
Proof.
  split.
  - induction s as [|a s IH]; cbn [Contains]; intros Hc.
    + rewrite orb_false_r in Hc. apply HasPrefix_spec in Hc as [q ->].
      now exists EmptyString, q.
    + apply orb_true_iff in Hc as [Hp|Hc].
      * apply HasPrefix_spec in Hp as [q ->]. now exists EmptyString, q.
      * destruct (IH Hc) as (p & q & ->). now exists (String a p), q.
  - intros (p & q & ->). induction p as [|a p IH].
    + assert (Hp : HasPrefix (m +:+ q) m = true).
      { apply HasPrefix_spec. now exists q. }
      change (Contains (m +:+ q) m = true).
      revert Hp. generalize (m +:+ q). intros s Hp.
      destruct s as [|b s].
      * change (Contains EmptyString m)
          with (HasPrefix EmptyString m || false). now rewrite Hp.
      * change (Contains (String b s) m)
          with (HasPrefix (String b s) m || Contains s m). now rewrite Hp.
    + change (HasPrefix (String a p +:+ m +:+ q) m
              || Contains (p +:+ m +:+ q) m = true).
      rewrite IH. apply orb_true_r.
Qed.

Lemma splitLines_head a data :
  Ascii.eqb a bufio.newline = false ->
  hd EmptyString (splitLines (String a data))
  = String a (hd EmptyString (splitLines data)).
Proof.
  intros Ha. cbn [splitLines]. rewrite Ha. now destruct (splitLines data).
Qed.

(** A text without newline starts a log where it starts its first
    line. *)
Lemma HasPrefix_first_line data : forall m,
  ~ In bufio.newline (list_ascii_of_string m) ->
  HasPrefix data m = HasPrefix (hd EmptyString (splitLines data)) m.
Proof.
  induction data as [|a data IH]; intros m Hno; [reflexivity|].
  destruct m as [|p m]; [now rewrite !HasPrefix_nil|].
  assert (Hp : Ascii.eqb bufio.newline p = false).
  { apply Ascii.eqb_neq. intros <-. apply Hno. now left. }
  destruct (Ascii.eqb_spec a bufio.newline) as [->|Ha%Ascii.eqb_neq].
  - cbn [splitLines]. rewrite Ascii.eqb_refl. cbn [hd HasPrefix].
    now rewrite Hp.
  - rewrite (splitLines_head _ _ Ha). cbn [HasPrefix]. f_equal.
    apply IH. intros Hin. apply Hno. now right.
Qed.

(** A text without newline stands in a log exactly when it stands in one
    of its lines. *)
Lemma Contains_lines m data :
  ~ In bufio.newline (list_ascii_of_string m) -> m <> EmptyString ->
  Contains data m = existsb (fun l => Contains l m) (splitLines data).
Proof.
  intros Hno Hne.
  assert (Hnil : Contains EmptyString m = false).
  { destruct m; [contradiction|reflexivity]. }
  induction data as [|a data IH].
  - cbn [splitLines existsb]. now rewrite orb_false_r.
  - pose proof (HasPrefix_first_line (String a data) m Hno) as Hp.
    change (Contains (String a data) m)
      with (HasPrefix (String a data) m || Contains data m).
    rewrite Hp, IH. cbn [splitLines].
    destruct (Ascii.eqb a bufio.newline).
    + cbn [existsb hd]. rewrite Hnil.
      destruct m; [contradiction|reflexivity].
    + destruct (splitLines data) as [|line ls]; cbn [existsb hd Contains].
      * assert (Hnil' : HasPrefix EmptyString m = false)
          by (destruct m; [contradiction|reflexivity]).
        now rewrite Hnil', !orb_false_r.
      * now rewrite orb_assoc.
Qed.

Lemma fitting_all ls :
  Forall (fun l => len l < bufio.MaxScanTokenSize) ls -> fitting ls = ls.
Proof.
  induction 1 as [|l ls Hl _ IH]; [reflexivity|]. cbn [fitting].
  destruct (Z.leb_spec bufio.MaxScanTokenSize (len l)); [lia|]. now rewrite IH.
Qed.

Lemma marked_fitting ls : marked (fitting ls) = true -> marked ls = true.
Proof.
  unfold marked. induction ls as [|l ls IH]; cbn [fitting existsb]; [easy|].
  destruct (bufio.MaxScanTokenSize <=? len l); [discriminate|].
  cbn [existsb]. intros [->|Hm]%orb_true_iff; [reflexivity|].
  rewrite IH by assumption. apply orb_true_r.
Qed.

Lemma rerunMarker_one_line :
  ~ In bufio.newline (list_ascii_of_string rerunMarker).
Proof.
  cbn. intros Hin. repeat (destruct Hin as [Hin|Hin]; [discriminate|]).
  exact Hin.
Qed.

Section DetectorText.

Context {W : Type} `{Host W}.

Lemma needsRerun_result dir (w : W) :
  result (needsRerun dir w) = answer (os_Open (logOf dir) w).1.
Proof.
  rewrite needsRerun_eq. cbn zeta. fold (logOf dir).
  destruct (os_Open (logOf dir) w) as [[file|e] w1]; [|reflexivity].
  now destruct (file_Close file w1).
Qed.

(** X8.  [needsRerun] asks for no rerun on its own: when it returns
    true the log was opened and the marker ["Rerun to get"] stands in its
    text. *)
Theorem needsRerun_sound dir (w : W) :
  result (needsRerun dir w) = true ->
  exists file p q,
    (os_Open (logOf dir) w).1 = inl file /\
    os.data file = p +:+ rerunMarker +:+ q.
Proof.
  rewrite needsRerun_result.
  destruct (os_Open (logOf dir) w).1 as [file|e]; [|discriminate].
  cbn [answer]. rewrite scanLog_lines. intros Hm%marked_fitting.
  unfold marked in Hm.
  rewrite <- Contains_lines in Hm by (exact rerunMarker_one_line || easy).
  apply Contains_spec in Hm as (p & q & Hpq). now exists file, p, q.
Qed.

(** X9.  On a log whose lines are all shorter than 65536 bytes
    [needsRerun] misses nothing: it returns true exactly when the marker
    stands somewhere in the text of the log. *)
Theorem needsRerun_short_lines dir (w : W) file :
  (os_Open (logOf dir) w).1 = inl file ->
  Forall (fun l => len l < bufio.MaxScanTokenSize)
    (splitLines (os.data file)) ->
  result (needsRerun dir w) = true <->
  exists p q, os.data file = p +:+ rerunMarker +:+ q.
Proof.
  intros Hopen Hshort. rewrite needsRerun_result, Hopen. cbn [answer].
  rewrite scanLog_lines, (fitting_all _ Hshort). unfold marked.
  rewrite <- Contains_lines by (exact rerunMarker_one_line || easy).
  apply Contains_spec.
Qed.

End DetectorText.

(** * Runs on the scripted host *)

Section Examples.

Import Scripted.

Example Clean_examples :
  map path.Clean
    ["abc//def//ghi"; "/abc/def/../.."; "abc/def/../../.."; "abc/./../def";
     "/../a"; "./"; ""]
  = ["abc/def/ghi"; "/"; ".."; "def"; "/a"; "."; "."].
Proof. reflexivity. Qed.

Example Join_examples :
  map path.Join [["/tmp/gotex-1"; "gotex.log"]; ["/tmp//x/"; "gotex.pdf"];
                 ["a"; ""]; [""; ""]]
  = ["/tmp/gotex-1/gotex.log"; "/tmp/x/gotex.pdf"; "a"; ""].
Proof. reflexivity. Qed.

Example Scan_examples :
  bufio.Scan ("ab" +:+ String bufio.carriageReturn lf +:+ "cd")
  = bufio.Token "ab" "cd" /\
  bufio.Scan "cd" = bufio.Token "cd" "" /\
  bufio.Scan "" = bufio.Done.
Proof. repeat split. Qed.

(** The two runs of the package's test: a document that compiles gives
    the artifact and no working area is left; an invalid one gives an
    error that names the log, and the working area stays. *)
Example TestRender :
  let good := Render article (mkOptions "" 0) (Scripted.world [finished]) in
  let bad := Render invalid (mkOptions "" 0) (Scripted.world [failing]) in
  result good = (Some (list_byte_of_string "%PDF-1.5"), None) /\
  bool_decide ("/tmp/gotex-1" ∈ dirs (worldAfter good)) = false /\
  files (worldAfter good) !! "/tmp/gotex-1/gotex.log" = None /\
  result bad
  = (None, Some (errorString "LaTeX error. Check /tmp/gotex-1/gotex.log")) /\
  bool_decide ("/tmp/gotex-1" ∈ dirs (worldAfter bad)) = true /\
  files (worldAfter bad) !! "/tmp/gotex-1/gotex.log"
  = Some ("! Undefined control sequence." +:+ lf).
Proof. vm_compute. repeat split. Qed.

(** C1, as stated, fails: with [Runs = 2] and a document the compiler
    rejects, the compiler is invoked once, not twice. *)
Lemma Render_fixed_runs_failing_pass :
  let options := mkOptions "" 2 in
  let r := Render invalid options (Scripted.world [failing; failing]) in
  0 < Runs options /\
  invocations (trace r) = 1 /\
  invocations (trace r) <> Runs options.
Proof. vm_compute. repeat split; discriminate. Qed.

Lemma Render_fixed_runs_witness :
  let options := mkOptions "" 2 in
  let t := trace (Render article options
                    (Scripted.world [again; again; again])) in
  0 < Runs options /\ consultations t = 0 /\ invocations t = 2.
Proof.
  cbn zeta.
  destruct (Render_fixed_runs article (mkOptions "" 2)
              (Scripted.world [again; again; again]) eq_refl)
    as (Hc & _ & Hn).
  split; [reflexivity|]. split; [exact Hc|].
  eapply Hn; vm_compute; reflexivity.
Defined.

(** C2: the code at a negative number of runs, next to the same world
    in automagic mode.  With [Runs = -1] the compiler runs 5 times and
    the detector is never consulted; with [Runs = 0] it runs once and
    the detector, consulted once, says no. *)
Lemma Render_negative_runs_example :
  let w := Scripted.world (repeat finished 6) in
  let negative := trace (Render article (mkOptions "" (-1)) w) in
  let auto := trace (Render article (mkOptions "" 0) w) in
  (invocations negative = 5 /\ consultations negative = 0) /\
  (invocations auto = 1 /\ answers auto = [false]).
Proof. vm_compute. repeat split. Qed.

Lemma Render_auto_ceiling_witness :
  let options := mkOptions "" 0 in
  let w := Scripted.world (repeat again 7) in
  let t := trace (Render article options w) in
  verdicts t = repeat (Some true) 5 /\ invocations t = 5.
Proof.
  cbn zeta. split; [vm_compute; reflexivity|].
  destruct (Render_auto_ceiling article (mkOptions "" 0)
              (Scripted.world (repeat again 7)) eq_refl) as [_ [_ Hn]].
  eapply Hn; [vm_compute; reflexivity|].
  vm_compute. repeat constructor.
Defined.

Lemma Render_auto_three_witness :
  let options := mkOptions "" 0 in
  let w := Scripted.world [again; again; finished; again] in
  let t := trace (Render article options w) in
  verdicts t = [Some true; Some true; Some false] /\ invocations t = 3.
Proof.
  cbn zeta. split; [vm_compute; reflexivity|].
  refine (proj1 (Render_auto_three article (mkOptions "" 0)
                   (Scripted.world [again; again; finished; again]) []
                   eq_refl _)).
  vm_compute. reflexivity.
Defined.

(** C5, as stated, fails: the second line of [longLog] contains the
    marker, and [needsRerun] returns false, for its Scanner stops at
    the first line. *)
Lemma needsRerun_long_line :
  marked (splitLines longLog) = true /\
  result (needsRerun "/tmp/gotex-1" (withLog longLog)) = false.
Proof. vm_compute. split; reflexivity. Qed.

(** The claim holds on the log line of the LaTeX manual, on a log
    without the marker and on a missing log. *)
Example needsRerun_examples :
  result (needsRerun "/tmp/gotex-1"
            (withLog ("Label(s) may have changed. " +:+
                      "Rerun to get cross-references right." +:+ lf)))
  = true /\
  result (needsRerun "/tmp/gotex-1" (withLog ("No file gotex.aux." +:+ lf)))
  = false /\
  result (needsRerun "/tmp/gotex-1" (Scripted.world [])) = false.
Proof. vm_compute. repeat split. Qed.

(** C6, as stated, fails: when the compiler cannot be started the error
    of [runLatex] is the one [cmd.Start] returned, which says nothing of
    the log. *)
Lemma runLatex_start_failure_kept :
  let r := runLatex article (mkOptions "pdflatex" 0) "/tmp/gotex-1"
             (Scripted.world [missing]) in
  result r = Some (ExecError "pdflatex" "executable file not found in $PATH")
  /\ result r
     <> Some (errors.New ("LaTeX error. Check " +:+ logOf "/tmp/gotex-1")).
Proof. vm_compute. split; [reflexivity|discriminate]. Qed.

Lemma runLatex_failure_witness :
  result (runLatex invalid (mkOptions "pdflatex" 0) "/tmp/gotex-1"
            (Scripted.world [failing]))
  = Some (errorString "LaTeX error. Check /tmp/gotex-1/gotex.log") /\
  result (runLatex article (mkOptions "pdflatex" 0) "/tmp/gotex-1"
            (Scripted.world [missing]))
  = Some (ExecError "pdflatex" "executable file not found in $PATH").
Proof.
  split.
  - refine (proj1 (runLatex_failure invalid (mkOptions "pdflatex" 0)
                     "/tmp/gotex-1" (Scripted.world [failing])) _ _ _ _ _);
      vm_compute; reflexivity.
  - refine (proj2 (runLatex_failure article (mkOptions "pdflatex" 0)
                     "/tmp/gotex-1" (Scripted.world [missing])) _ _ _);
      vm_compute; reflexivity.
Defined.

Lemma Render_cleanup_witness :
  (exists output,
      result (Render article (mkOptions "" 1) (stuck [finished]))
      = (Some output, None)) /\
  count isRemoveAll
    (trace (Render invalid (mkOptions "" 0) (Scripted.world [failing]))) = 0.
Proof.
  split.
  - refine (proj2 (proj2 (Render_cleanup article (mkOptions "" 1)
                            (stuck [finished])))
              "/tmp/gotex-1"
              (Some (PathError "unlinkat" "/tmp/gotex-1" "permission denied"))
              _).
    vm_compute. do 4 right. left. reflexivity.
  - refine (proj1 (Render_cleanup invalid (mkOptions "" 0)
                     (Scripted.world [failing]))
              (errorString "LaTeX error. Check /tmp/gotex-1/gotex.log") _).
    vm_compute. reflexivity.
Defined.

Lemma Render_no_working_area_witness :
  Render article (mkOptions "" 3) noTemp
  = ((None, Some (PathError "mkdir" "/tmp/gotex-1" "permission denied")),
     noTemp,
     [TempDirCall "" "gotex-"
        (inr (PathError "mkdir" "/tmp/gotex-1" "permission denied"))]).
Proof.
  apply (Render_no_working_area article (mkOptions "" 3) noTemp).
  reflexivity.
Defined.

Lemma Render_commands_witness :
  Forall (eq (exec.mkCmd "pdflatex"
                ["pdflatex"; "-jobname=gotex"; "-halt-on-error"]
                "/tmp/gotex-1" (Some article)))
    (commands (trace (Render article (mkOptions "" 0)
                        (Scripted.world [again; finished])))).
Proof.
  eapply (Render_commands article (mkOptions "" 0)
            (Scripted.world [again; finished])).
  vm_compute. reflexivity.
Defined.

Lemma Render_compiles_first_witness :
  1 <= invocations (trace (Render article (mkOptions "" (-3))
                             (Scripted.world [failing]))).
Proof.
  eapply (proj1 (Render_compiles_first article (mkOptions "" (-3))
                   (Scripted.world [failing]))).
  vm_compute. reflexivity.
Defined.

End Examples.

(** ** The files of the working area *)

Lemma append_assoc (a b d : string) : (a +:+ b) +:+ d = a +:+ (b +:+ d).
Proof.
  induction a as [|x a IH]; [reflexivity|].
  change (String x ((a +:+ b) +:+ d) = String x (a +:+ (b +:+ d))).
  now rewrite IH.
Qed.

Lemma elements_app a : forall cur b,
  path.elements cur (a +:+ String path.slash b)
  = path.elements cur a ++ path.elements [] b.
Proof.
  induction a as [|x a IH]; intros cur b.
  - change (path.elements cur (String path.slash b)
            = [string_of_list_ascii (rev cur)] ++ path.elements [] b).
    unfold path.elements at 1. fold path.elements.
    destruct (Ascii.eqb_spec path.slash path.slash); [reflexivity|easy].
  - change (String x a +:+ String path.slash b)
      with (String x (a +:+ String path.slash b)).
    cbn [path.elements]. destruct (Ascii.eqb x path.slash); now rewrite IH.
Qed.

Lemma elements_plain name : forall cur,
  ~ In path.slash (list_ascii_of_string name) ->
  path.elements cur name
  = [string_of_list_ascii (rev cur ++ list_ascii_of_string name)].
Proof.
  induction name as [|x name IH]; intros cur Hno.
  - cbn. now rewrite List.app_nil_r.
  - cbn [path.elements list_ascii_of_string] in *.
    destruct (Ascii.eqb_spec x path.slash) as [->|_].
    + exfalso. apply Hno. now left.
    + rewrite IH by (intros Hin; apply Hno; now right).
      cbn [rev]. now rewrite <- app_assoc.
Qed.

Lemma elements_no_slash p : forall cur,
  ~ In path.slash cur ->
  Forall (fun e => ~ In path.slash (list_ascii_of_string e))
    (path.elements cur p).
Proof.
  induction p as [|x p IH]; intros cur Hcur; cbn [path.elements].
  - constructor; [|constructor].
    rewrite list_ascii_of_string_of_list_ascii, <- in_rev. exact Hcur.
  - destruct (Ascii.eqb_spec x path.slash) as [->|Hx].
    + constructor; [|now apply IH].
      rewrite list_ascii_of_string_of_list_ascii, <- in_rev. exact Hcur.
    + apply IH. intros [Heq|Hin]; [now apply Hx|now apply Hcur].
Qed.

Lemma cleanStep_kept rooted out e :
  Forall kept out -> ~ In path.slash (list_ascii_of_string e) ->
  Forall kept (path.cleanStep rooted out e).
Proof.
  intros Hout He. unfold path.cleanStep.
  destruct (String.eqb_spec e "") as [|Hne]; [assumption|].
  destruct (String.eqb_spec e ".") as [|Hnd]; [assumption|].
  destruct (String.eqb_spec e "..") as [->|_].
  - destruct out as [|top out'].
    + destruct rooted; [constructor|].
      constructor; [|constructor]. now repeat split.
    + destruct (String.eqb top "..").
      * constructor; [now repeat split|assumption].
      * now inversion Hout.
  - constructor; [now repeat split|assumption].
Qed.

Lemma fold_cleanStep_kept rooted es : forall out,
  Forall kept out ->
  Forall (fun e => ~ In path.slash (list_ascii_of_string e)) es ->
  Forall kept (fold_left (path.cleanStep rooted) es out).
Proof.
  induction es as [|e es IH]; intros out Hout Hes; [assumption|].
  inversion Hes; subst. cbn [fold_left]. apply IH; [|assumption].
  now apply cleanStep_kept.
Qed.

Lemma joinElements_snoc l name :
  path.joinElements (l ++ [name])
  = match l with
    | [] => name
    | _ => path.joinElements l +:+ "/" +:+ name
    end.
Proof.
  induction l as [|e l IH]; [reflexivity|].
  destruct l as [|e' l]; [reflexivity|].
  change (e +:+ "/" +:+ path.joinElements ((e' :: l) ++ [name])
          = (e +:+ "/" +:+ path.joinElements (e' :: l)) +:+ "/" +:+ name).
  rewrite IH. now rewrite !append_assoc.
Qed.

Lemma joinElements_kept l :
  Forall kept l -> l <> [] ->
  path.joinElements l <> "" /\ path.joinElements l <> "/" /\
  path.joinElements l <> ".".
Proof.
  intros Hl Hne. destruct l as [|e l]; [contradiction|].
  inversion Hl as [|? ? (He & Hd & Hs) _]; subst.
  destruct e as [|x e]; [contradiction|].
  destruct l as [|e' l].
  - cbn [path.joinElements]. repeat split; [discriminate| |assumption].
    intros [= -> ->]. apply Hs. now left.
  - change (path.joinElements (String x e :: e' :: l))
      with (String x (e +:+ "/" +:+ path.joinElements (e' :: l))).
    repeat split; [discriminate| |]; intros [= _ E]; now destruct e.
Qed.

(** For a plain file name, [path.Join(dir, name)] is the clean path of
    [dir], a slash and the name (just the name after ["."], no second
    slash after ["/"]). *)
Lemma Join_in_dir dir name :
  plainName name ->
  path.Join [dir; name] = inDir (path.Clean dir) name.
Proof.
  intros (Hne & Hnd & Hndd & Hns).
  assert (Hstep : forall rooted out,
             path.cleanStep rooted out name = name :: out).
  { intros rooted out. unfold path.cleanStep.
    destruct (String.eqb_spec name ""); [contradiction|].
    destruct (String.eqb_spec name "."); [contradiction|].
    now destruct (String.eqb_spec name ".."). }
  assert (Hname : path.elements [] name = [name]).
  { rewrite elements_plain by assumption. cbn [rev app].
    now rewrite string_of_list_ascii_of_string. }
  unfold path.Join. cbn [List.filter].
  destruct (String.eqb_spec name ""); [contradiction|]. cbn [negb].
  destruct dir as [|x dir]; cbn [String.eqb negb].
  - (* no directory: the name alone *)
    cbn [path.joinElements]. destruct name as [|y name]; [contradiction|].
    unfold path.Clean. rewrite Hname. cbn [fold_left].
    rewrite Hstep. cbn [rev app path.joinElements].
    destruct (Ascii.eqb_spec y path.slash) as [->|_].
    + exfalso. apply Hns. now left.
    + reflexivity.
  - change (path.joinElements [String x dir; name])
      with (String x (dir +:+ String path.slash name)).
    unfold path.Clean.
    change (String x (dir +:+ String path.slash name))
      with (String x dir +:+ String path.slash name).
    rewrite elements_app, Hname, fold_left_app. cbn [fold_left].
    rewrite Hstep. cbn [rev]. rewrite joinElements_snoc.
    pose proof (fold_cleanStep_kept (Ascii.eqb x path.slash)
                  (path.elements [] (String x dir)) []
                  ltac:(constructor)
                  (elements_no_slash _ [] ltac:(easy))) as Hkept.
    apply Forall_rev in Hkept.
    destruct (rev (fold_left (path.cleanStep (Ascii.eqb x path.slash))
                     (path.elements [] (String x dir)) []))
      as [|e out] eqn:Hout.
    + (* the directory is the root, or the current directory *)
      cbn [path.joinElements]. destruct (Ascii.eqb x path.slash).
      * reflexivity.
      * cbn [String.eqb]. unfold inDir. cbn [String.eqb].
        destruct name; [contradiction|reflexivity].
    + destruct (joinElements_kept (e :: out) Hkept ltac:(discriminate))
        as (Hb & Hb1 & Hb2).
      set (body := path.joinElements (e :: out)) in *.
      destruct (Ascii.eqb x path.slash).
      * unfold inDir.
        destruct (String.eqb_spec ("/" +:+ body) "/") as [[= E]|_];
          [contradiction|].
        destruct (String.eqb_spec ("/" +:+ body) ".") as [[=]|_].
        reflexivity.
      * destruct (String.eqb_spec body "") as [|_]; [contradiction|].
        destruct (String.eqb_spec (body +:+ "/" +:+ name) "") as [E|_].
        { destruct body; [contradiction|discriminate]. }
        unfold inDir.
        destruct (String.eqb_spec body "/"); [contradiction|].
        destruct (String.eqb_spec body "."); [contradiction|].
        reflexivity.
Qed.

Lemma append_inv_head d : forall a b, d +:+ a = d +:+ b -> a = b.
Proof.
  induction d as [|x d IH]; intros a b E; [exact E|].
  injection E as E. now apply IH.
Qed.

Lemma plainName_gotex_log : plainName "gotex.log".
Proof.
  repeat split; try discriminate. cbn. intros Hin.
  repeat (destruct Hin as [Hin|Hin]; [discriminate|]). exact Hin.
Qed.

Lemma plainName_gotex_pdf : plainName "gotex.pdf".
Proof.
  repeat split; try discriminate. cbn. intros Hin.
  repeat (destruct Hin as [Hin|Hin]; [discriminate|]). exact Hin.
Qed.

Lemma working_area_paths dir :
  logOf dir = inDir (path.Clean dir) "gotex.log" /\
  pdfOf dir = inDir (path.Clean dir) "gotex.pdf".
Proof.
  unfold logOf, pdfOf.
  now rewrite (Join_in_dir _ _ plainName_gotex_log),
    (Join_in_dir _ _ plainName_gotex_pdf).
Qed.

(** X10.  The files of the working area.  Whatever way the path of the
    working area is written, the log that [needsRerun] opens and that the
    error of [runLatex] names is the file [gotex.log] of that directory,
    the artifact that [Render] reads is its file [gotex.pdf], and the two
    are different files. *)
Theorem working_area_files dir :
  logOf dir = inDir (path.Clean dir) "gotex.log" /\
  pdfOf dir = inDir (path.Clean dir) "gotex.pdf" /\
  logOf dir <> pdfOf dir.
Proof.
  destruct (working_area_paths dir) as [-> ->].
  split; [reflexivity|]. split; [reflexivity|].
  unfold inDir. destruct (String.eqb (path.Clean dir) "/"); [discriminate|].
  destruct (String.eqb (path.Clean dir) "."); [discriminate|].
  intros E%append_inv_head. discriminate.
Qed.

Section ErrorText.

Context {W : Type} `{Host W}.

(** X11.  The error tells where to find the log.  When the last call of
    [Render] is a [cmd.Wait] that returned an error, whatever that error
    is, [Render] returns an error whose text is ["LaTeX error. Check "]
    followed by the path of [gotex.log] in the temporary directory it
    made. *)
Theorem Render_error_names_log document options (w : W) dir w1 t0 c e :
  ioutil_TempDir "" "gotex-" w = (inl dir, w1) ->
  trace (Render document options w) = t0 ++ [WaitCall c (Some e)] ->
  result (Render document options w)
  = (None,
     Some (errorString
             ("LaTeX error. Check " +:+
              inDir (path.Clean dir) "gotex.log"))).
Proof.
  intros Hdir.
  generalize (Render_run document options w).
  generalize (result (Render document options w))
             (worldAfter (Render document options w))
             (trace (Render document options w)).
  intros res w' t Hrun E.
  destruct Hrun as [ err w1' Htmp
                   | dir' w1' e' runs' w2 tl Htmp Hloop
                   | dir' w1' runs' w2 tl e' w3 Htmp Hloop Hread
                   | dir' w1' runs' w2 tl output w3 rc w4 Htmp Hloop Hread
                       Hrm ].
  - destruct t0 as [|? [|? ?]]; discriminate.
  - assert (dir' = dir) as -> by congruence.
    pose proof (loopRun_failure _ _ _ _ _ _ _ _ _ _ Hloop) as Hf.
    pose proof (loopRun_inArea _ _ _ _ _ _ _ _ _ _ Hloop) as Hin.
    cbn [fst] in Hf. destruct Hf as (t0' & ev & -> & Hev & _).
    change (TempDirCall "" "gotex-" (inl dir) :: t0' ++ [ev])
      with ((TempDirCall "" "gotex-" (inl dir) :: t0') ++ [ev]) in E.
    apply app_inj_tail in E as [_ ->].
    apply Forall_app in Hin as [_ Hin]. inversion Hin as [|? ? Hc _]; subst.
    cbn [inArea] in Hc. cbn [failure] in Hev. rewrite Hc in Hev.
    injection Hev as <-.
    now rewrite (proj1 (working_area_paths dir)).
  - change (TempDirCall "" "gotex-" (inl dir') ::
              tl ++ [ReadFileCall (pdfOf dir') (inr e')])
      with ((TempDirCall "" "gotex-" (inl dir') :: tl) ++
              [ReadFileCall (pdfOf dir') (inr e')]) in E.
    apply app_inj_tail in E as [_ [=]].
  - replace (TempDirCall "" "gotex-" (inl dir') ::
               tl ++ [ReadFileCall (pdfOf dir') (inl output);
                      RemoveAllCall dir' rc])
      with ((TempDirCall "" "gotex-" (inl dir') ::
               tl ++ [ReadFileCall (pdfOf dir') (inl output)]) ++
              [RemoveAllCall dir' rc]) in E
      by (cbn [app]; now rewrite <- app_assoc).
    apply app_inj_tail in E as [_ [=]].
Qed.

End ErrorText.

(** * Further runs on the scripted host *)

Section FurtherExamples.

Import Scripted.

Lemma Render_reads_artifact_last_witness :
  let w := Scripted.world [again; finished] in
  let c := latexCmd article (mkOptions "pdflatex" 2) "/tmp/gotex-1" in
  let t1 := [TempDirCall "" "gotex-" (inl "/tmp/gotex-1");
             StartCall c None; WaitCall c None;
             StartCall c None; WaitCall c None] in
  trace (Render article (mkOptions "" 2) w)
  = t1 ++ ReadFileCall "/tmp/gotex-1/gotex.pdf"
            (inl (list_byte_of_string "%PDF-1.5"))
          :: [RemoveAllCall "/tmp/gotex-1" None] /\
  forallb passOk t1 = true /\
  result (Render article (mkOptions "" 2) w)
  = (Some (list_byte_of_string "%PDF-1.5"), None).
Proof.
  cbn zeta. split; [vm_compute; reflexivity|].
  pose proof (Render_reads_artifact_last article (mkOptions "" 2)
                (Scripted.world [again; finished])
                [TempDirCall "" "gotex-" (inl "/tmp/gotex-1");
                 StartCall (latexCmd article (mkOptions "pdflatex" 2)
                              "/tmp/gotex-1") None;
                 WaitCall (latexCmd article (mkOptions "pdflatex" 2)
                             "/tmp/gotex-1") None;
                 StartCall (latexCmd article (mkOptions "pdflatex" 2)
                              "/tmp/gotex-1") None;
                 WaitCall (latexCmd article (mkOptions "pdflatex" 2)
                             "/tmp/gotex-1") None]
                "/tmp/gotex-1/gotex.pdf"
                (inl (list_byte_of_string "%PDF-1.5"))
                [RemoveAllCall "/tmp/gotex-1" None]) as Hthm.
  cbn zeta in Hthm.
  destruct Hthm as (_ & _ & Hok & dir & w1 & _ & _ & Hres & _);
    [vm_compute; reflexivity|].
  split; [exact Hok|exact Hres].
Defined.

Lemma Render_in_area_witness :
  exists t,
    trace (Render article (mkOptions "" 0) (Scripted.world [again; finished]))
    = TempDirCall "" "gotex-" (inl "/tmp/gotex-1") :: t /\
    Forall (inArea "/tmp/gotex-1") t.
Proof.
  eapply (Render_in_area article (mkOptions "" 0)
            (Scripted.world [again; finished])).
  vm_compute. reflexivity.
Defined.

Lemma Render_auto_verdicts_witness :
  let r := Render article (mkOptions "" 0)
             (Scripted.world [again; again; failing; finished]) in
  verdicts (trace r) = [Some true; Some true; None] /\
  exists k last,
    verdicts (trace r) = repeat (Some true) k ++ [last] /\
    invocations (trace r) = Z.of_nat k + 1.
Proof.
  cbn zeta. split; [vm_compute; reflexivity|].
  edestruct (fun w1 =>
               Render_auto_verdicts article (mkOptions "" 0)
                 (Scripted.world [again; again; failing; finished])
                 "/tmp/gotex-1" w1 eq_refl)
    as (k & last & Hv & Hi & _); [vm_compute; reflexivity|].
  now exists k, last.
Defined.

Lemma renderLoop_counts_passes_witness :
  let r := renderLoop article (mkOptions "pdflatex" 3) "/tmp/gotex-1" 3
             true 0 (Scripted.world [finished; failing; finished]) in
  result r
  = (Some (errorString "LaTeX error. Check /tmp/gotex-1/gotex.log"), 1) /\
  0 <= (result r).2 <= 3 /\
  invocations (trace r) = 2.
Proof.
  cbn zeta. split; [vm_compute; reflexivity|].
  destruct (renderLoop_counts_passes article (mkOptions "pdflatex" 3)
              "/tmp/gotex-1" 3
              (Scripted.world [finished; failing; finished])
              ltac:(discriminate)) as (Hb & Hi & _).
  split; [exact Hb|]. rewrite Hi. vm_compute. reflexivity.
Defined.


Lemma needsRerun_sound_witness :
  exists file p q,
    (os_Open (logOf "/tmp/gotex-1")
       (withLog ("LaTeX Warning: Label(s) may have changed. " +:+
                 "Rerun to get cross-references right." +:+ lf))).1
    = inl file /\
    os.data file = p +:+ rerunMarker +:+ q.
Proof.
  apply (needsRerun_sound "/tmp/gotex-1"). vm_compute. reflexivity.
Defined.

Lemma needsRerun_short_lines_witness :
  let text := "No file gotex.aux." +:+ lf +:+
              "Package rerunfilecheck Warning: Rerun to get " +:+
              "outlines right" +:+ lf in
  Forall (fun l => len l < bufio.MaxScanTokenSize) (splitLines text) /\
  result (needsRerun "/tmp/gotex-1" (withLog text)) = true.
Proof.
  cbn zeta.
  assert (Hshort : Forall (fun l => len l < bufio.MaxScanTokenSize)
            (splitLines ("No file gotex.aux." +:+ lf +:+
                         "Package rerunfilecheck Warning: Rerun to get " +:+
                         "outlines right" +:+ lf))).
  { vm_compute. repeat constructor. }
  split; [exact Hshort|].
  assert (Hopen :
            (os_Open (logOf "/tmp/gotex-1")
               (withLog ("No file gotex.aux." +:+ lf +:+
                         "Package rerunfilecheck Warning: Rerun to get "
                         +:+ "outlines right" +:+ lf))).1
            = inl (os.mkFile "/tmp/gotex-1/gotex.log"
                     ("No file gotex.aux." +:+ lf +:+
                      "Package rerunfilecheck Warning: Rerun to get " +:+
                      "outlines right" +:+ lf))).
  { vm_compute. reflexivity. }
  apply (proj2 (needsRerun_short_lines "/tmp/gotex-1"
                  (withLog ("No file gotex.aux." +:+ lf +:+
                            "Package rerunfilecheck Warning: Rerun to get "
                            +:+ "outlines right" +:+ lf))
                  (os.mkFile "/tmp/gotex-1/gotex.log"
                     ("No file gotex.aux." +:+ lf +:+
                      "Package rerunfilecheck Warning: Rerun to get " +:+
                      "outlines right" +:+ lf))
                  Hopen Hshort)).
  exists ("No file gotex.aux." +:+ lf +:+
          "Package rerunfilecheck Warning: "),
    (" outlines right" +:+ lf).
  vm_compute. reflexivity.
Defined.

Example working_area_examples :
  map logOf ["/tmp/gotex-1"; "/tmp//x/"; "/"; "."; "../a/."; ""]
  = ["/tmp/gotex-1/gotex.log"; "/tmp/x/gotex.log"; "/gotex.log";
     "gotex.log"; "../a/gotex.log"; "gotex.log"] /\
  map (fun d => inDir (path.Clean d) "gotex.log")
    ["/tmp/gotex-1"; "/tmp//x/"; "/"; "."; "../a/."; ""]
  = ["/tmp/gotex-1/gotex.log"; "/tmp/x/gotex.log"; "/gotex.log";
     "gotex.log"; "../a/gotex.log"; "gotex.log"].
Proof. split; reflexivity. Qed.

Lemma Render_error_names_log_witness :
  result (Render invalid (mkOptions "" 0)
            (Scripted.world [again; failing]))
  = (None, Some (errorString "LaTeX error. Check /tmp/gotex-1/gotex.log")).
Proof.
  set (c := latexCmd invalid (mkOptions "pdflatex" 0) "/tmp/gotex-1").
  set (f := os.mkFile "/tmp/gotex-1/gotex.log"
              ("Label(s) may have changed. Rerun to get cross-references right."
               +:+ lf)).
  erewrite (Render_error_names_log invalid (mkOptions "" 0)
              (Scripted.world [again; failing]) "/tmp/gotex-1" _
              [TempDirCall "" "gotex-" (inl "/tmp/gotex-1");
               StartCall c None; WaitCall c None;
               OpenCall "/tmp/gotex-1/gotex.log" (inl f); CloseCall f None;
               StartCall c None]
              c (ExitError 1)).
  - vm_compute. reflexivity.
  - vm_compute. reflexivity.
  - vm_compute. reflexivity.
Defined.

End FurtherExamples.
